(** * The curator workflow of [src/nodes/curator_graph.py]

    A shallow embedding of the fraud-curation workflow: the pydantic
    models with their validation and serialisation, the three agents, the
    three workflow nodes, the routing of the compiled graph and the
    facade [CuratorAgent.analyze_case].

    - Python values that travel untyped (agent responses, serialised
      states) are values of [PyVal]; a dictionary is an association list
      read at its first binding.
    - Exceptions, the calls to the language model, the executed graph
      nodes and the [print]ed lines are effects: a computation [M A] takes
      the log written so far and returns a result or an exception together
      with the extended log.
    - The language model is outside the program: each agent is a record
      holding its structured caller, a function from the arguments of the
      prompt to the answer (a value or an exception).
    - Values are those of JSON without floating-point numbers; an
      instance of a model stands as its dump. *)

From Stdlib Require Import String Ascii List ZArith Bool.
Import ListNotations.
Open Scope string_scope.
Set Warnings "-register-all".

(** ** Python values *)

Inductive PyVal : Type :=
| VNone
| VBool (b : bool)
| VInt (z : Z)
| VStr (s : string)
| VList (l : list PyVal)
| VDict (d : list (string * PyVal)).

Definition Dict : Type := list (string * PyVal).

Fixpoint dict_get (k : string) (d : Dict) : option PyVal :=
  match d with
  | [] => None
  | (k', v) :: d' => if String.eqb k k' then Some v else dict_get k d'
  end.

(** [d[k] = v]: an existing key keeps its place, a new one goes last. *)
Fixpoint dict_set (d : Dict) (k : string) (v : PyVal) : Dict :=
  match d with
  | [] => [(k, v)]
  | (k', v') :: d' =>
      if String.eqb k k' then (k', v) :: d' else (k', v') :: dict_set d' k v
  end.

(** [d.update(u)] *)
Definition dict_update (d u : Dict) : Dict :=
  fold_left (fun acc kv => dict_set acc (fst kv) (snd kv)) u d.

Definition of_option_str (o : option string) : PyVal :=
  match o with Some s => VStr s | None => VNone end.

Definition of_option_dict (o : option Dict) : PyVal :=
  match o with Some d => VDict d | None => VNone end.

Definition of_list_str (l : list string) : PyVal := VList (map VStr l).

(** ** Schema validation (pydantic, default mode)

    A validation collects one line error per offending field. *)

Inductive LocItem : Type := LKey (k : string) | LIdx (i : nat).

Inductive ErrType : Type :=
| missing | string_type | bool_type | bool_parsing
| list_type | dict_type | model_type.

Record LineError : Type := { loc : list LocItem; err : ErrType }.

Definition Validated (A : Type) : Type := (list LineError + A)%type.

Definition invalid {A : Type} (e : ErrType) : Validated A :=
  inl [ {| loc := []; err := e |} ].

Definition at_loc {A : Type} (i : LocItem) (v : Validated A) : Validated A :=
  match v with
  | inl es => inl (map (fun e => {| loc := i :: loc e; err := err e |}) es)
  | inr a => inr a
  end.

(** Fields are validated independently and their errors are put together. *)
Definition ap {A B : Type} (f : Validated (A -> B)) (x : Validated A)
  : Validated B :=
  match f, x with
  | inr g, inr a => inr (g a)
  | inl es, inr _ => inl es
  | inr _, inl es => inl es
  | inl es1, inl es2 => inl (es1 ++ es2)%list
  end.

Definition validate_str (v : PyVal) : Validated string :=
  match v with
  | VStr s => inr s
  | _ => invalid string_type
  end.

Definition ascii_lower (c : ascii) : ascii :=
  let n := nat_of_ascii c in
  if (65 <=? n)%nat && (n <=? 90)%nat then ascii_of_nat (n + 32) else c.

Fixpoint lower (s : string) : string :=
  match s with
  | EmptyString => EmptyString
  | String c s' => String (ascii_lower c) (lower s')
  end.

Definition in_strs (s : string) (l : list string) : bool :=
  existsb (String.eqb s) l.

(** A [bool] field also takes the integers 0 and 1 and the usual words;
    an integer is looked at only when it fits in 64 bits. *)
Definition validate_bool (v : PyVal) : Validated bool :=
  match v with
  | VBool b => inr b
  | VInt 0 => inr false
  | VInt 1 => inr true
  | VInt z =>
      if ((- 2 ^ 63 <=? z) && (z <? 2 ^ 63))%Z then invalid bool_parsing
      else invalid bool_type
  | VStr s =>
      if in_strs (lower s) ["1"; "on"; "t"; "true"; "y"; "yes"] then inr true
      else if in_strs (lower s) ["0"; "off"; "f"; "false"; "n"; "no"]
           then inr false
           else invalid bool_parsing
  | _ => invalid bool_type
  end.

Definition validate_optional_str (v : PyVal) : Validated (option string) :=
  match v with
  | VNone => inr None
  | VStr s => inr (Some s)
  | _ => invalid string_type
  end.

Definition validate_optional_dict (v : PyVal) : Validated (option Dict) :=
  match v with
  | VNone => inr None
  | VDict d => inr (Some d)
  | _ => invalid dict_type
  end.

Fixpoint validate_items (i : nat) (l : list PyVal) : Validated (list string) :=
  match l with
  | [] => inr []
  | v :: l' =>
      ap (ap (inr cons) (at_loc (LIdx i) (validate_str v)))
         (validate_items (S i) l')
  end.

Definition validate_list_str (v : PyVal) : Validated (list string) :=
  match v with
  | VList l => validate_items 0 l
  | _ => invalid list_type
  end.

(** A required field ([Field(...)] or no default). *)
Definition required {A : Type} (d : Dict) (k : string)
  (f : PyVal -> Validated A) : Validated A :=
  match dict_get k d with
  | Some v => at_loc (LKey k) (f v)
  | None => inl [ {| loc := [LKey k]; err := missing |} ]
  end.

(** A field with a default. *)
Definition optional {A : Type} (d : Dict) (k : string)
  (f : PyVal -> Validated A) (default : A) : Validated A :=
  match dict_get k d with
  | Some v => at_loc (LKey k) (f v)
  | None => inr default
  end.

(** ** The pydantic models *)

Definition datetime : Type := Z.

Module PatternAnalysisOutput.
Record t : Type := {
  is_fraud : bool;
  patterns : list string;
  reasoning : string }.

Definition model_validate (v : PyVal) : Validated t :=
  match v with
  | VDict d =>
      ap (ap (ap (inr Build_t)
                 (required d "is_fraud" validate_bool))
             (required d "patterns" validate_list_str))
         (required d "reasoning" validate_str)
  | _ => invalid model_type
  end.

Definition model_dump (m : t) : Dict :=
  [ ("is_fraud", VBool (is_fraud m));
    ("patterns", of_list_str (patterns m));
    ("reasoning", VStr (reasoning m)) ].
End PatternAnalysisOutput.

Module FraudTypeOutput.
Record t : Type := {
  fraud_type : string;
  explanation : string;
  new_type_name : option string }.

Definition model_validate (v : PyVal) : Validated t :=
  match v with
  | VDict d =>
      ap (ap (ap (inr Build_t)
                 (required d "fraud_type" validate_str))
             (required d "explanation" validate_str))
         (optional d "new_type_name" validate_optional_str None)
  | _ => invalid model_type
  end.

Definition model_dump (m : t) : Dict :=
  [ ("fraud_type", VStr (fraud_type m));
    ("explanation", VStr (explanation m));
    ("new_type_name", of_option_str (new_type_name m)) ].
End FraudTypeOutput.

Module FraudSummaryOutput.
Record t : Type := {
  summary : string;
  warning_signs : list string;
  precautions : list string }.

Definition model_validate (v : PyVal) : Validated t :=
  match v with
  | VDict d =>
      ap (ap (ap (inr Build_t)
                 (required d "summary" validate_str))
             (required d "warning_signs" validate_list_str))
         (required d "precautions" validate_list_str)
  | _ => invalid model_type
  end.

Definition model_dump (m : t) : Dict :=
  [ ("summary", VStr (summary m));
    ("warning_signs", of_list_str (warning_signs m));
    ("precautions", of_list_str (precautions m)) ].
End FraudSummaryOutput.

Module CuratorState.
Record t : Type := {
  text : string;
  similar_cases : list string;
  pattern_analysis : option Dict;
  fraud_type : option Dict;
  final_summary : option string;
  is_fraud : bool;
  new_type_name : option string }.

(** [CuratorState(text=..., similar_cases=...)] *)
Definition init (text : string) (similar_cases : list string) : t :=
  {| text := text; similar_cases := similar_cases;
     pattern_analysis := None; fraud_type := None; final_summary := None;
     is_fraud := false; new_type_name := None |}.

Definition model_validate (v : PyVal) : Validated t :=
  match v with
  | VDict d =>
      ap (ap (ap (ap (ap (ap (ap (inr Build_t)
        (required d "text" validate_str))
        (required d "similar_cases" validate_list_str))
        (optional d "pattern_analysis" validate_optional_dict None))
        (optional d "fraud_type" validate_optional_dict None))
        (optional d "final_summary" validate_optional_str None))
        (optional d "is_fraud" validate_bool false))
        (optional d "new_type_name" validate_optional_str None)
  | _ => invalid model_type
  end.

Definition model_dump (s : t) : Dict :=
  [ ("text", VStr (text s));
    ("similar_cases", of_list_str (similar_cases s));
    ("pattern_analysis", of_option_dict (pattern_analysis s));
    ("fraud_type", of_option_dict (fraud_type s));
    ("final_summary", of_option_str (final_summary s));
    ("is_fraud", VBool (is_fraud s));
    ("new_type_name", of_option_str (new_type_name s)) ].

(** Attribute assignments ([state.field = value]). *)
Definition set_pattern_analysis (s : t) (v : option Dict) : t :=
  {| text := text s; similar_cases := similar_cases s;
     pattern_analysis := v; fraud_type := fraud_type s;
     final_summary := final_summary s; is_fraud := is_fraud s;
     new_type_name := new_type_name s |}.

Definition set_is_fraud (s : t) (v : bool) : t :=
  {| text := text s; similar_cases := similar_cases s;
     pattern_analysis := pattern_analysis s; fraud_type := fraud_type s;
     final_summary := final_summary s; is_fraud := v;
     new_type_name := new_type_name s |}.

Definition set_fraud_type (s : t) (v : option Dict) : t :=
  {| text := text s; similar_cases := similar_cases s;
     pattern_analysis := pattern_analysis s; fraud_type := v;
     final_summary := final_summary s; is_fraud := is_fraud s;
     new_type_name := new_type_name s |}.

Definition set_new_type_name (s : t) (v : option string) : t :=
  {| text := text s; similar_cases := similar_cases s;
     pattern_analysis := pattern_analysis s; fraud_type := fraud_type s;
     final_summary := final_summary s; is_fraud := is_fraud s;
     new_type_name := v |}.

Definition set_final_summary (s : t) (v : option string) : t :=
  {| text := text s; similar_cases := similar_cases s;
     pattern_analysis := pattern_analysis s; fraud_type := fraud_type s;
     final_summary := v; is_fraud := is_fraud s;
     new_type_name := new_type_name s |}.
End CuratorState.

Module FraudAnalysis.
Record t : Type := {
  is_fraud : bool;
  fraud_type : string;
  explanation : string;
  similar_cases : list string;
  timestamp : datetime;
  new_type_name : option string }.

(** The constructor [FraudAnalysis(...)] validates its keyword
    arguments; [is_fraud], [similar_cases], [timestamp] and
    [new_type_name] are passed values of their declared types. *)
Definition create (is_fraud : bool) (fraud_type explanation : PyVal)
  (similar_cases : list string) (timestamp : datetime)
  (new_type_name : option string) : Validated t :=
  ap (ap (inr (fun f e => Build_t is_fraud f e similar_cases timestamp
                                  new_type_name))
         (at_loc (LKey "fraud_type") (validate_str fraud_type)))
     (at_loc (LKey "explanation") (validate_str explanation)).
End FraudAnalysis.

Module TextInput.
Record t : Type := { text : string }.
End TextInput.

(** ** Exceptions, log and computations *)

Inductive Exn : Type :=
| ValidationError (title : string) (errors : list LineError)
| ValueError (message : string) (detail : Exn)
    (* the message is [message] followed by the text of [detail] *)
| KeyError (key : string)
| TypeError (message : string)
| GraphRecursionError
| ModelError (what : string).
    (* whatever the call to the language model raises *)

Inductive AgentName : Type := PatternAgent | TypeAgent | SummaryAgentName.

(** The lines the program prints. *)
Inductive Line : Type :=
| ErrorInProcessing (e : Exn)
| OriginalResponse (response : PyVal)
| StateAfterClassify (s : CuratorState.t)
| StateLine (s : CuratorState.t).

Inductive Event : Type :=
| Ran (node : string)          (* the graph starts a node *)
| Invoked (agent : AgentName)  (* [llm.invoke] of an agent *)
| Printed (l : Line).

Definition Log : Type := list Event.

Definition M (A : Type) : Type := Log -> (Exn + A) * Log.

Definition ret {A : Type} (a : A) : M A := fun w => (inr a, w).

Definition bind {A B : Type} (m : M A) (k : A -> M B) : M B :=
  fun w =>
    match m w with
    | (inr a, w') => k a w'
    | (inl e, w') => (inl e, w')
    end.

Definition raise {A : Type} (e : Exn) : M A := fun w => (inl e, w).

(** [try: body except Exception as e: handler e] *)
Definition try_except {A : Type} (body : M A) (handler : Exn -> M A) : M A :=
  fun w =>
    match body w with
    | (inr a, w') => (inr a, w')
    | (inl e, w') => handler e w'
    end.

Definition emit (ev : Event) : M unit := fun w => (inr tt, (w ++ [ev])%list).

Definition print (l : Line) : M unit := emit (Printed l).

Notation "x <- m ;; k" := (bind m (fun x => k))
  (at level 61, m at next level, right associativity).
Notation "m ;;; k" := (bind m (fun _ => k))
  (at level 61, right associativity).

(** A failed validation raises pydantic's [ValidationError]. *)
Definition validated {A : Type} (title : string) (v : Validated A) : M A :=
  match v with
  | inr a => ret a
  | inl es => raise (ValidationError title es)
  end.

(** [o[k]] on an [Optional[Dict]] attribute. *)
Definition getitem (o : option Dict) (k : string) : M PyVal :=
  match o with
  | None => raise (TypeError "'NoneType' object is not subscriptable")
  | Some d =>
      match dict_get k d with
      | Some v => ret v
      | None => raise (KeyError k)
      end
  end.

(** Truth value of an [Optional[str]]: [None] and [""] are false. *)
Definition truthy (o : option string) : bool :=
  match o with
  | None => false
  | Some s => negb (String.eqb s "")
  end.

(** [a or b]: [b] is evaluated only when [a] is false. *)
Definition py_or (a : option string) (b : M PyVal) : M PyVal :=
  if truthy a then ret (of_option_str a) else b.

(** ** The agents *)

(** The structured caller of an agent: what [self.llm.invoke] answers to
    the rendered prompt, given the prompt's arguments. *)
Definition invoke_llm (agent : AgentName) (answer : Exn + PyVal) : M PyVal :=
  emit (Invoked agent) ;;;
  match answer with
  | inr response => ret response
  | inl e => raise e
  end.

Module BaseAgent.
Definition _validate_and_parse_response (response : PyVal) : M PyVal :=
  try_except
    (ret response)
    (fun e =>
       print (ErrorInProcessing e) ;;;
       print (OriginalResponse response) ;;;
       raise e).
End BaseAgent.

Module PatternAnalysisAgent.
Record t : Type := { llm : string -> Exn + PyVal }.

Definition analyze (self : t) (text : string) : M PyVal :=
  response <- invoke_llm PatternAgent (llm self text) ;;
  BaseAgent._validate_and_parse_response response.
End PatternAnalysisAgent.

Module FraudTypeAgent.
Record t : Type := { llm : option Dict -> list string -> Exn + PyVal }.

Definition classify (self : t) (pattern_description : option Dict)
  (similar_cases : list string) : M PyVal :=
  response <-
    invoke_llm TypeAgent (llm self pattern_description similar_cases) ;;
  BaseAgent._validate_and_parse_response response.
End FraudTypeAgent.

Module SummaryAgent.
Record t : Type := { llm : Dict -> Exn + PyVal }.

Definition summarize (self : t) (analysis : Dict) : M PyVal :=
  response <- invoke_llm SummaryAgentName (llm self analysis) ;;
  BaseAgent._validate_and_parse_response response.
End SummaryAgent.

(** ** The state graph *)

Definition END : string := "__end__".

Fixpoint assoc {A : Type} (k : string) (l : list (string * A)) : option A :=
  match l with
  | [] => None
  | (k', a) :: l' => if String.eqb k k' then Some a else assoc k l'
  end.

Record StateGraph : Type := {
  nodes : list (string * (Dict -> M Dict));
  edges : list (string * string);
  branches : list (string * ((Dict -> M string) * list (string * string)));
  entry_point : option string }.

Definition empty_graph : StateGraph :=
  {| nodes := []; edges := []; branches := []; entry_point := None |}.

Definition add_node (g : StateGraph) (name : string) (action : Dict -> M Dict)
  : StateGraph :=
  {| nodes := (nodes g ++ [(name, action)])%list; edges := edges g;
     branches := branches g; entry_point := entry_point g |}.

Definition add_edge (g : StateGraph) (source target : string) : StateGraph :=
  {| nodes := nodes g; edges := (edges g ++ [(source, target)])%list;
     branches := branches g; entry_point := entry_point g |}.

Definition add_conditional_edges (g : StateGraph) (source : string)
  (path : Dict -> M string) (path_map : list (string * string)) : StateGraph :=
  {| nodes := nodes g; edges := edges g;
     branches := (branches g ++ [(source, (path, path_map))])%list;
     entry_point := entry_point g |}.

Definition set_entry_point (g : StateGraph) (name : string) : StateGraph :=
  {| nodes := nodes g; edges := edges g; branches := branches g;
     entry_point := Some name |}.

(** Where the graph goes after [name]: through the conditional edge of the
    node when it has one, else along its edge; a node without either ends
    the run. *)
Definition next_node (g : StateGraph) (name : string) (state : Dict)
  : M string :=
  match assoc name (branches g) with
  | Some (path, path_map) =>
      r <- path state ;;
      match assoc r path_map with
      | Some target => ret target
      | None => raise (KeyError r)
      end
  | None =>
      match assoc name (edges g) with
      | Some target => ret target
      | None => ret END
      end
  end.

(** The number of steps after which the graph library gives up. *)
Definition recursion_limit : nat := 25.

(** One step runs one node: the dictionary the node returns updates the
    state, then the outgoing edge is chosen. *)
Definition step (g : StateGraph) (name : string) (state : Dict)
  : M (string * Dict) :=
  match assoc name (nodes g) with
  | None => raise (KeyError name)
  | Some action =>
      emit (Ran name) ;;;
      update <- action state ;;
      let state' := dict_update state update in
      next <- next_node g name state' ;;
      ret (next, state')
  end.

(** The run with a limit of [fuel] steps. The limit is tested after each
    step, before the graph looks whether a node is left to run: a run
    through [n] nodes needs a limit of [n + 1]. *)
Fixpoint run (g : StateGraph) (fuel : nat) (name : string) (state : Dict)
  : M Dict :=
  match fuel with
  | O => raise GraphRecursionError
  | S fuel' =>
      r <- step g name state ;;
      match fuel' with
      | O => raise GraphRecursionError
      | S _ =>
          if String.eqb (fst r) END then ret (snd r)
          else run g fuel' (fst r) (snd r)
      end
  end.

(** [workflow.invoke(state)] with the default configuration. *)
Definition invoke (g : StateGraph) (state : Dict) : M Dict :=
  match entry_point g with
  | Some name => run g recursion_limit name state
  | None => raise (KeyError "__start__")
  end.

(** ** The workflow nodes (local functions of [create_curator_graph]) *)

Definition analyze_patterns (pattern_agent : PatternAnalysisAgent.t)
  (state : Dict) : M Dict :=
  state <- validated "CuratorState" (CuratorState.model_validate (VDict state)) ;;
  result <- PatternAnalysisAgent.analyze pattern_agent (CuratorState.text state) ;;
  result_model <-
    try_except
      (validated "PatternAnalysisOutput"
         (PatternAnalysisOutput.model_validate result))
      (fun e =>
         raise (ValueError
                  "Error al validar el resultado de PatternAnalysisAgent: " e)) ;;
  let state :=
    CuratorState.set_pattern_analysis state
      (Some (PatternAnalysisOutput.model_dump result_model)) in
  let state :=
    CuratorState.set_is_fraud state
      (PatternAnalysisOutput.is_fraud result_model) in
  ret (CuratorState.model_dump state).

(** [state.fraud_type["fraud_type"]] and [state.fraud_type["new_type_name"]]
    read the dump of [result_model] stored just before; they are the
    fields of [result_model] (lemmas [fraud_type_of_dump] and
    [new_type_name_of_dump]). *)
Definition classify_type (type_agent : FraudTypeAgent.t) (state : Dict)
  : M Dict :=
  state <- validated "CuratorState" (CuratorState.model_validate (VDict state)) ;;
  result <- FraudTypeAgent.classify type_agent
              (CuratorState.pattern_analysis state)
              (CuratorState.similar_cases state) ;;
  result_model <-
    try_except
      (validated "FraudTypeOutput" (FraudTypeOutput.model_validate result))
      (fun e =>
         raise (ValueError
                  "Error al validar el resultado de FraudTypeAgent: " e)) ;;
  let state :=
    CuratorState.set_fraud_type state
      (Some (FraudTypeOutput.model_dump result_model)) in
  let state :=
    if String.eqb (FraudTypeOutput.fraud_type result_model) "NEW"
    then CuratorState.set_new_type_name state
           (FraudTypeOutput.new_type_name result_model)
    else state in
  print (StateAfterClassify state) ;;;
  ret (CuratorState.model_dump state).

Definition generate_summary (summary_agent : SummaryAgent.t) (state : Dict)
  : M Dict :=
  state <- validated "CuratorState" (CuratorState.model_validate (VDict state)) ;;
  result <- SummaryAgent.summarize summary_agent
              [ ("pattern_analysis",
                 of_option_dict (CuratorState.pattern_analysis state));
                ("fraud_type",
                 of_option_dict (CuratorState.fraud_type state)) ] ;;
  result_model <-
    try_except
      (validated "FraudSummaryOutput"
         (FraudSummaryOutput.model_validate result))
      (fun e =>
         raise (ValueError
                  "Error al validar el resultado de SummaryAgent: " e)) ;;
  print (StateLine state) ;;;
  let state :=
    CuratorState.set_final_summary state
      (Some (FraudSummaryOutput.summary result_model)) in
  ret (CuratorState.model_dump state).

Definition should_classify (state : Dict) : M string :=
  state <- validated "CuratorState" (CuratorState.model_validate (VDict state)) ;;
  ret (if CuratorState.is_fraud state then "classify" else "end").

Definition create_curator_graph (pattern_agent : PatternAnalysisAgent.t)
  (type_agent : FraudTypeAgent.t) (summary_agent : SummaryAgent.t)
  : StateGraph :=
  let workflow := empty_graph in
  let workflow :=
    add_node workflow "analyze_patterns" (analyze_patterns pattern_agent) in
  let workflow :=
    add_node workflow "classify_type" (classify_type type_agent) in
  let workflow :=
    add_node workflow "generate_summary" (generate_summary summary_agent) in
  let workflow :=
    add_conditional_edges workflow "analyze_patterns" should_classify
      [ ("classify", "classify_type"); ("end", END) ] in
  let workflow := add_edge workflow "classify_type" "generate_summary" in
  let workflow := add_edge workflow "generate_summary" END in
  set_entry_point workflow "analyze_patterns".

(** ** The facade *)

Module CuratorAgent.
Record t : Type := {
  pattern_agent : PatternAnalysisAgent.t;
  type_agent : FraudTypeAgent.t;
  summary_agent : SummaryAgent.t }.

Definition workflow (self : t) : StateGraph :=
  create_curator_graph (pattern_agent self) (type_agent self)
    (summary_agent self).

(** [now] is what [datetime.now()] reads when the result is built. *)
Definition analyze_case (self : t) (now : datetime)
  (text_input : TextInput.t) (similar_cases : list string)
  : M FraudAnalysis.t :=
  let initial_state :=
    CuratorState.model_dump
      (CuratorState.init (TextInput.text text_input) similar_cases) in
  final_state <- invoke (workflow self) initial_state ;;
  final_state <-
    validated "CuratorState"
      (CuratorState.model_validate (VDict final_state)) ;;
  if CuratorState.is_fraud final_state then
    fraud_type <- getitem (CuratorState.fraud_type final_state) "fraud_type" ;;
    explanation <-
      py_or (CuratorState.final_summary final_state)
        (getitem (CuratorState.pattern_analysis final_state) "reasoning") ;;
    validated "FraudAnalysis"
      (FraudAnalysis.create true fraud_type explanation similar_cases now
         (CuratorState.new_type_name final_state))
  else
    explanation <-
      getitem (CuratorState.pattern_analysis final_state) "reasoning" ;;
    validated "FraudAnalysis"
      (FraudAnalysis.create false (VStr "NO_FRAUD") explanation
         similar_cases now None).
End CuratorAgent.

(** ** Sample language models *)

Module Sample.
Definition fraud : PatternAnalysisOutput.t :=
  {| PatternAnalysisOutput.is_fraud := true;
     PatternAnalysisOutput.patterns := ["urgency"; "spoofed link"];
     PatternAnalysisOutput.reasoning := "asks for a password reset" |}.

Definition honest : PatternAnalysisOutput.t :=
  {| PatternAnalysisOutput.is_fraud := false;
     PatternAnalysisOutput.patterns := [];
     PatternAnalysisOutput.reasoning := "a price disagreement" |}.

Definition phishing : FraudTypeOutput.t :=
  {| FraudTypeOutput.fraud_type := "PHISHING";
     FraudTypeOutput.explanation := "credential theft";
     FraudTypeOutput.new_type_name := None |}.

Definition novel : FraudTypeOutput.t :=
  {| FraudTypeOutput.fraud_type := "NEW";
     FraudTypeOutput.explanation := "no category fits";
     FraudTypeOutput.new_type_name :=
       Some "SYNTHETIC IDENTITY LOAN STACKING" |}.

Definition summary (s : string) : FraudSummaryOutput.t :=
  {| FraudSummaryOutput.summary := s;
     FraudSummaryOutput.warning_signs := ["unexpected email"];
     FraudSummaryOutput.precautions := ["do not follow the link"] |}.

(** A curator whose three callers answer [p], [c] and [s]. *)
Definition curator (p c s : Exn + PyVal) : CuratorAgent.t :=
  {| CuratorAgent.pattern_agent :=
       {| PatternAnalysisAgent.llm := fun _ => p |};
     CuratorAgent.type_agent :=
       {| FraudTypeAgent.llm := fun _ _ => c |};
     CuratorAgent.summary_agent :=
       {| SummaryAgent.llm := fun _ => s |} |}.

Definition says_pattern (m : PatternAnalysisOutput.t) : Exn + PyVal :=
  inr (VDict (PatternAnalysisOutput.model_dump m)).
Definition says_type (m : FraudTypeOutput.t) : Exn + PyVal :=
  inr (VDict (FraudTypeOutput.model_dump m)).
Definition says_summary (m : FraudSummaryOutput.t) : Exn + PyVal :=
  inr (VDict (FraudSummaryOutput.model_dump m)).

Definition case : TextInput.t :=
  {| TextInput.text := "Your account is locked, reset your password here" |}.

Definition known : list string := ["PHISHING"; "ADVANCE FEE"].

Definition now : datetime := 1762160400%Z.

(** No fraud is found. *)
Definition honest_curator : CuratorAgent.t :=
  curator (says_pattern honest) (says_type phishing)
    (says_summary (summary "Beware of reset links.")).

(** Fraud of a known type, with a summary. *)
Definition phishing_curator : CuratorAgent.t :=
  curator (says_pattern fraud) (says_type phishing)
    (says_summary (summary "Beware of reset links.")).

(** Fraud of a new type. *)
Definition novel_curator : CuratorAgent.t :=
  curator (says_pattern fraud) (says_type novel)
    (says_summary (summary "Beware of loan offers.")).

(** Fraud of a known type, with an empty summary. *)
Definition terse_curator : CuratorAgent.t :=
  curator (says_pattern fraud) (says_type phishing)
    (says_summary (summary "")).

(** The type agent answers [None]. *)
Definition broken_curator : CuratorAgent.t :=
  curator (says_pattern fraud) (inr VNone)
    (says_summary (summary "Beware of reset links.")).

(** The model cannot be reached. *)
Definition unreachable_model : PatternAnalysisAgent.t :=
  {| PatternAnalysisAgent.llm := fun _ => inl (ModelError "timeout") |}.
End Sample.


(** ** Observations on a log *)

Definition nodes_run (w : Log) : list string :=
  flat_map (fun ev => match ev with Ran n => [n] | _ => [] end) w.

Definition agents_invoked (w : Log) : list AgentName :=
  flat_map (fun ev => match ev with Invoked a => [a] | _ => [] end) w.

(** Whether a line [Original response: ...] was printed. *)
Definition response_printed (w : Log) : bool :=
  existsb (fun ev =>
             match ev with Printed (OriginalResponse _) => true | _ => false end)
    w.

(** ** What the agents are asked and what they answer

    In the analysis of the case [text_input] with [similar_cases]: the
    pattern agent is asked about the text, the type agent about the dump of
    the pattern analysis and the similar cases, the summary agent about
    the dumps of both results. An agent reports a model when its answer
    passes the schema of that model. *)

Definition summary_request (p : PatternAnalysisOutput.t)
  (c : FraudTypeOutput.t) : Dict :=
  [ ("pattern_analysis", VDict (PatternAnalysisOutput.model_dump p));
    ("fraud_type", VDict (FraudTypeOutput.model_dump c)) ].

(** What each agent answers in the analysis of a case. *)
Definition ask_pattern (self : CuratorAgent.t) (text_input : TextInput.t)
  : Exn + PyVal :=
  PatternAnalysisAgent.llm (CuratorAgent.pattern_agent self)
    (TextInput.text text_input).

Definition ask_type (self : CuratorAgent.t) (similar_cases : list string)
  (p : PatternAnalysisOutput.t) : Exn + PyVal :=
  FraudTypeAgent.llm (CuratorAgent.type_agent self)
    (Some (PatternAnalysisOutput.model_dump p)) similar_cases.

Definition ask_summary (self : CuratorAgent.t) (p : PatternAnalysisOutput.t)
  (c : FraudTypeOutput.t) : Exn + PyVal :=
  SummaryAgent.llm (CuratorAgent.summary_agent self) (summary_request p c).

Definition pattern_reports (self : CuratorAgent.t) (text_input : TextInput.t)
  (p : PatternAnalysisOutput.t) : Prop :=
  exists r,
    ask_pattern self text_input = inr r /\
    PatternAnalysisOutput.model_validate r = inr p.

Definition type_reports (self : CuratorAgent.t) (similar_cases : list string)
  (p : PatternAnalysisOutput.t) (c : FraudTypeOutput.t) : Prop :=
  exists r,
    ask_type self similar_cases p = inr r /\
    FraudTypeOutput.model_validate r = inr c.

Definition summary_reports (self : CuratorAgent.t)
  (p : PatternAnalysisOutput.t) (c : FraudTypeOutput.t)
  (s : FraudSummaryOutput.t) : Prop :=
  exists r,
    ask_summary self p c = inr r /\
    FraudSummaryOutput.model_validate r = inr s.

(** The answer of [agent] is rejected by its schema with the errors [es]
    (the agents before it, if any, having reported fraud and a type). *)
Inductive validation_fails (self : CuratorAgent.t) (text_input : TextInput.t)
  (similar_cases : list string) : AgentName -> list LineError -> Prop :=
| fails_pattern r es :
    ask_pattern self text_input = inr r ->
    PatternAnalysisOutput.model_validate r = inl es ->
    validation_fails self text_input similar_cases PatternAgent es
| fails_type p r es :
    pattern_reports self text_input p ->
    PatternAnalysisOutput.is_fraud p = true ->
    ask_type self similar_cases p = inr r ->
    FraudTypeOutput.model_validate r = inl es ->
    validation_fails self text_input similar_cases TypeAgent es
| fails_summary p c r es :
    pattern_reports self text_input p ->
    PatternAnalysisOutput.is_fraud p = true ->
    type_reports self similar_cases p c ->
    ask_summary self p c = inr r ->
    FraudSummaryOutput.model_validate r = inl es ->
    validation_fails self text_input similar_cases SummaryAgentName es.

Definition node_of (a : AgentName) : string :=
  match a with
  | PatternAgent => "analyze_patterns"
  | TypeAgent => "classify_type"
  | SummaryAgentName => "generate_summary"
  end.

Definition schema_of (a : AgentName) : string :=
  match a with
  | PatternAgent => "PatternAnalysisOutput"
  | TypeAgent => "FraudTypeOutput"
  | SummaryAgentName => "FraudSummaryOutput"
  end.

Definition validation_message (a : AgentName) : string :=
  match a with
  | PatternAgent => "Error al validar el resultado de PatternAnalysisAgent: "
  | TypeAgent => "Error al validar el resultado de FraudTypeAgent: "
  | SummaryAgentName => "Error al validar el resultado de SummaryAgent: "
  end.

(** The nodes on the way to the node of an agent, in order. *)
Definition path_to (a : AgentName) : list string :=
  match a with
  | PatternAgent => ["analyze_patterns"]
  | TypeAgent => ["analyze_patterns"; "classify_type"]
  | SummaryAgentName => ["analyze_patterns"; "classify_type"; "generate_summary"]
  end.

(** The configurations (next node or [END], state, log) that the run of
    the workflow goes through in the analysis of a case. *)
Inductive reachable (self : CuratorAgent.t) (text_input : TextInput.t)
  (similar_cases : list string) : string -> Dict -> Log -> Prop :=
| reach_entry :
    reachable self text_input similar_cases "analyze_patterns"
      (CuratorState.model_dump
         (CuratorState.init (TextInput.text text_input) similar_cases))
      []
| reach_step name state w next state' w' :
    reachable self text_input similar_cases name state w ->
    step (CuratorAgent.workflow self) name state w = (inr (next, state'), w') ->
    reachable self text_input similar_cases next state' w'.

(** The state a node returns (before serialisation), from the state it
    receives and the model its agent reported. *)
Definition after_analysis (s : CuratorState.t) (p : PatternAnalysisOutput.t)
  : CuratorState.t :=
  CuratorState.set_is_fraud
    (CuratorState.set_pattern_analysis s
       (Some (PatternAnalysisOutput.model_dump p)))
    (PatternAnalysisOutput.is_fraud p).

Definition after_classification (s : CuratorState.t) (c : FraudTypeOutput.t)
  : CuratorState.t :=
  let s' :=
    CuratorState.set_fraud_type s (Some (FraudTypeOutput.model_dump c)) in
  if String.eqb (FraudTypeOutput.fraud_type c) "NEW"
  then CuratorState.set_new_type_name s' (FraudTypeOutput.new_type_name c)
  else s'.

Definition after_summary (s : CuratorState.t) (m : FraudSummaryOutput.t)
  : CuratorState.t :=
  CuratorState.set_final_summary s (Some (FraudSummaryOutput.summary m)).

Definition invalid_answer (a : AgentName) (es : list LineError) : Exn :=
  ValueError (validation_message a) (ValidationError (schema_of a) es).

(** The results [analyze_case] builds from the reported models. *)
Definition no_fraud_result (now : datetime) (similar_cases : list string)
  (p : PatternAnalysisOutput.t) : FraudAnalysis.t :=
  {| FraudAnalysis.is_fraud := false;
     FraudAnalysis.fraud_type := "NO_FRAUD";
     FraudAnalysis.explanation := PatternAnalysisOutput.reasoning p;
     FraudAnalysis.similar_cases := similar_cases;
     FraudAnalysis.timestamp := now;
     FraudAnalysis.new_type_name := None |}.

Definition fraud_result (now : datetime) (similar_cases : list string)
  (p : PatternAnalysisOutput.t) (c : FraudTypeOutput.t)
  (m : FraudSummaryOutput.t) : FraudAnalysis.t :=
  {| FraudAnalysis.is_fraud := true;
     FraudAnalysis.fraud_type := FraudTypeOutput.fraud_type c;
     FraudAnalysis.explanation :=
       if String.eqb (FraudSummaryOutput.summary m) ""
       then PatternAnalysisOutput.reasoning p
       else FraudSummaryOutput.summary m;
     FraudAnalysis.similar_cases := similar_cases;
     FraudAnalysis.timestamp := now;
     FraudAnalysis.new_type_name :=
       if String.eqb (FraudTypeOutput.fraud_type c) "NEW"
       then FraudTypeOutput.new_type_name c
       else None |}.

(** The states of a case along the workflow. *)
Definition analysed (text_input : TextInput.t) (similar_cases : list string)
  (p : PatternAnalysisOutput.t) : CuratorState.t :=
  after_analysis
    (CuratorState.init (TextInput.text text_input) similar_cases) p.

Definition classified (text_input : TextInput.t) (similar_cases : list string)
  (p : PatternAnalysisOutput.t) (c : FraudTypeOutput.t) : CuratorState.t :=
  after_classification (analysed text_input similar_cases p) c.

Definition summarised (text_input : TextInput.t) (similar_cases : list string)
  (p : PatternAnalysisOutput.t) (c : FraudTypeOutput.t)
  (m : FraudSummaryOutput.t) : CuratorState.t :=
  after_summary (classified text_input similar_cases p c) m.

(** The log of a case up to the call of each agent, and of a whole run. *)
Definition log_pattern : Log :=
  [Ran "analyze_patterns"; Invoked PatternAgent].

Definition log_type : Log :=
  (log_pattern ++ [Ran "classify_type"; Invoked TypeAgent])%list.

Definition log_summary (after_classify : CuratorState.t) : Log :=
  (log_type ++ [Printed (StateAfterClassify after_classify);
                Ran "generate_summary"; Invoked SummaryAgentName])%list.

Definition log_complete (after_classify : CuratorState.t) : Log :=
  (log_summary after_classify ++ [Printed (StateLine after_classify)])%list.

(** Where the run of a case can be: at a node with the state the nodes
    before it produced, or at the end. *)
Inductive position (self : CuratorAgent.t) (text_input : TextInput.t)
  (similar_cases : list string) : string -> Dict -> Prop :=
| at_analyze_patterns :
    position self text_input similar_cases "analyze_patterns"
      (CuratorState.model_dump
         (CuratorState.init (TextInput.text text_input) similar_cases))
| at_classify_type p :
    pattern_reports self text_input p ->
    PatternAnalysisOutput.is_fraud p = true ->
    position self text_input similar_cases "classify_type"
      (CuratorState.model_dump (analysed text_input similar_cases p))
| at_generate_summary p c :
    pattern_reports self text_input p ->
    PatternAnalysisOutput.is_fraud p = true ->
    type_reports self similar_cases p c ->
    position self text_input similar_cases "generate_summary"
      (CuratorState.model_dump (classified text_input similar_cases p c))
| at_end_no_fraud p :
    pattern_reports self text_input p ->
    PatternAnalysisOutput.is_fraud p = false ->
    position self text_input similar_cases END
      (CuratorState.model_dump (analysed text_input similar_cases p))
| at_end_fraud p c m :
    pattern_reports self text_input p ->
    PatternAnalysisOutput.is_fraud p = true ->
    type_reports self similar_cases p c ->
    summary_reports self p c m ->
    position self text_input similar_cases END
      (CuratorState.model_dump (summarised text_input similar_cases p c m)).

(** ** The tool [post_response]

    A model class, as [post_response] uses it: its validation, its
    serialisation and the names of its fields. *)

Record BaseModel : Type := {
  instance : Type;
  title : string;
  model_fields : list string;
  model_validate : PyVal -> Validated instance;
  model_dump : instance -> Dict }.

Definition PatternAnalysisOutput_model : BaseModel :=
  {| instance := PatternAnalysisOutput.t;
     title := "PatternAnalysisOutput";
     model_fields := ["is_fraud"; "patterns"; "reasoning"];
     model_validate := PatternAnalysisOutput.model_validate;
     model_dump := PatternAnalysisOutput.model_dump |}.

Definition FraudTypeOutput_model : BaseModel :=
  {| instance := FraudTypeOutput.t;
     title := "FraudTypeOutput";
     model_fields := ["fraud_type"; "explanation"; "new_type_name"];
     model_validate := FraudTypeOutput.model_validate;
     model_dump := FraudTypeOutput.model_dump |}.

Definition FraudSummaryOutput_model : BaseModel :=
  {| instance := FraudSummaryOutput.t;
     title := "FraudSummaryOutput";
     model_fields := ["summary"; "warning_signs"; "precautions"];
     model_validate := FraudSummaryOutput.model_validate;
     model_dump := FraudSummaryOutput.model_dump |}.

Definition CuratorState_model : BaseModel :=
  {| instance := CuratorState.t;
     title := "CuratorState";
     model_fields :=
       ["text"; "similar_cases"; "pattern_analysis"; "fraud_type";
        "final_summary"; "is_fraud"; "new_type_name"];
     model_validate := CuratorState.model_validate;
     model_dump := CuratorState.model_dump |}.

Definition TextInput_model : BaseModel :=
  {| instance := TextInput.t;
     title := "TextInput";
     model_fields := ["text"];
     model_validate := fun v =>
       match v with
       | VDict d => ap (inr TextInput.Build_t) (required d "text" validate_str)
       | _ => invalid model_type
       end;
     model_dump := fun m => [ ("text", VStr (TextInput.text m)) ] |}.

Module PostResponseInput.
Record t : Type := { content : Dict; model : BaseModel }.
End PostResponseInput.

Definition post_response (input_data : PostResponseInput.t) : M Dict :=
  let model := PostResponseInput.model input_data in
  m <- validated (title model)
         (model_validate model (VDict (PostResponseInput.content input_data))) ;;
  ret (model_dump model m).

(** The model classes of the program with a dictionary form. *)
Definition program_models : list BaseModel :=
  [ PatternAnalysisOutput_model; FraudTypeOutput_model;
    FraudSummaryOutput_model; CuratorState_model; TextInput_model ].

(** ** Construction of the agents

    The chat model: [with_structured_output] gives, for an output model,
    the caller that answers a rendered prompt. A rendered prompt is kept as
    its template and the arguments put into it. *)

Inductive Prompt : Type :=
| PatternPrompt (text : string)
| TypePrompt (description : option Dict) (known_types : list string)
| SummaryPrompt (analysis : Dict).

Record ChatOpenAI : Type := {
  with_structured_output : BaseModel -> Prompt -> Exn + PyVal }.

(** What a constructor raises: [ValueError(message)]. *)
Inductive ConstructionError : Type := ConfigurationError (message : string).

(** [BaseAgent.__init__], for a class whose [output_model] attribute is
    [output_model]; it returns the attribute [self.llm]. *)
Definition BaseAgent_init (output_model : option BaseModel) (llm : ChatOpenAI)
  : ConstructionError + (Prompt -> Exn + PyVal) :=
  match output_model with
  | None =>
      inl (ConfigurationError "output_model must be defined in child class")
  | Some model => inr (with_structured_output llm model)
  end.

Definition PatternAnalysisAgent_init (llm : ChatOpenAI)
  : ConstructionError + PatternAnalysisAgent.t :=
  match BaseAgent_init (Some PatternAnalysisOutput_model) llm with
  | inl e => inl e
  | inr caller =>
      inr {| PatternAnalysisAgent.llm :=
               fun text => caller (PatternPrompt text) |}
  end.

Definition FraudTypeAgent_init (llm : ChatOpenAI)
  : ConstructionError + FraudTypeAgent.t :=
  match BaseAgent_init (Some FraudTypeOutput_model) llm with
  | inl e => inl e
  | inr caller =>
      inr {| FraudTypeAgent.llm :=
               fun description known_types =>
                 caller (TypePrompt description known_types) |}
  end.

Definition SummaryAgent_init (llm : ChatOpenAI)
  : ConstructionError + SummaryAgent.t :=
  match BaseAgent_init (Some FraudSummaryOutput_model) llm with
  | inl e => inl e
  | inr caller =>
      inr {| SummaryAgent.llm := fun analysis => caller (SummaryPrompt analysis) |}
  end.

(** The part of [CuratorAgent.__init__] that builds the three agents from
    the chat model. Reading the settings, creating the chat model and the
    registry and compiling the graph come before and after it, are outside
    the program and may raise; they are not part of this function. *)
Definition CuratorAgent_init (llm : ChatOpenAI)
  : ConstructionError + CuratorAgent.t :=
  match PatternAnalysisAgent_init llm with
  | inl e => inl e
  | inr pattern_agent =>
      match FraudTypeAgent_init llm with
      | inl e => inl e
      | inr type_agent =>
          match SummaryAgent_init llm with
          | inl e => inl e
          | inr summary_agent =>
              inr {| CuratorAgent.pattern_agent := pattern_agent;
                     CuratorAgent.type_agent := type_agent;
                     CuratorAgent.summary_agent := summary_agent |}
          end
      end
  end.

(** ** Failed invocations and diagnostics *)

(** The invocation of the model by [agent] raises [e] (the agents before
    it, if any, having reported fraud and a type). *)
Inductive invocation_fails (self : CuratorAgent.t) (text_input : TextInput.t)
  (similar_cases : list string) : AgentName -> Exn -> Prop :=
| raises_pattern e :
    ask_pattern self text_input = inl e ->
    invocation_fails self text_input similar_cases PatternAgent e
| raises_type p e :
    pattern_reports self text_input p ->
    PatternAnalysisOutput.is_fraud p = true ->
    ask_type self similar_cases p = inl e ->
    invocation_fails self text_input similar_cases TypeAgent e
| raises_summary p c e :
    pattern_reports self text_input p ->
    PatternAnalysisOutput.is_fraud p = true ->
    type_reports self similar_cases p c ->
    ask_summary self p c = inl e ->
    invocation_fails self text_input similar_cases SummaryAgentName e.

(** Whether a line of the handler of [_validate_and_parse_response]
    ([Error in processing response: ...] or [Original response: ...]) was
    printed. *)
Definition diagnostics_printed (w : Log) : bool :=
  existsb (fun ev =>
             match ev with
             | Printed (ErrorInProcessing _) => true
             | Printed (OriginalResponse _) => true
             | _ => false
             end) w.

(** The fields of a state that the node of an agent assigns. *)
Definition same_text_and_cases (s s' : CuratorState.t) : Prop :=
  CuratorState.text s' = CuratorState.text s /\
  CuratorState.similar_cases s' = CuratorState.similar_cases s.

(** The chat model keeps the promise of structured output for the calls
    the agents make: what it answers to the prompt of an agent is an
    instance of the output model of that agent. *)
Definition honours_schemas (llm : ChatOpenAI) : Prop :=
  (forall text r,
     with_structured_output llm PatternAnalysisOutput_model
       (PatternPrompt text) = inr r ->
     exists m, r = VDict (PatternAnalysisOutput.model_dump m)) /\
  (forall description known_types r,
     with_structured_output llm FraudTypeOutput_model
       (TypePrompt description known_types) = inr r ->
     exists m, r = VDict (FraudTypeOutput.model_dump m)) /\
  (forall analysis r,
     with_structured_output llm FraudSummaryOutput_model
       (SummaryPrompt analysis) = inr r ->
     exists m, r = VDict (FraudSummaryOutput.model_dump m)).

(** A sample chat model: it finds fraud, then cannot be reached. *)
Definition sample_chat : ChatOpenAI :=
  {| with_structured_output := fun _ prompt =>
       match prompt with
       | PatternPrompt _ => Sample.says_pattern Sample.fraud
       | TypePrompt _ _ => inl (ModelError "timeout")
       | SummaryPrompt _ => Sample.says_summary (Sample.summary "Beware.")
       end |}.

(** ** Serialisation round trips *)

Lemma validate_items_map (l : list string) (i : nat) :
  validate_items i (map VStr l) = inr l.
Proof.
  revert i; induction l as [|s l IH]; intro i; simpl.
  - reflexivity.
  - rewrite IH. reflexivity.
Qed.

Lemma validate_list_str_of_list (l : list string) :
  validate_list_str (of_list_str l) = inr l.
Proof. apply validate_items_map. Qed.

Lemma PatternAnalysisOutput_round_trip (m : PatternAnalysisOutput.t) :
  PatternAnalysisOutput.model_validate
    (VDict (PatternAnalysisOutput.model_dump m)) = inr m.
Proof.
  destruct m as [b ps r].
  unfold PatternAnalysisOutput.model_validate, required; simpl.
  rewrite validate_items_map. reflexivity.
Qed.

Lemma FraudTypeOutput_round_trip (m : FraudTypeOutput.t) :
  FraudTypeOutput.model_validate (VDict (FraudTypeOutput.model_dump m)) = inr m.
Proof. destruct m as [f e [n|]]; reflexivity. Qed.

Lemma FraudSummaryOutput_round_trip (m : FraudSummaryOutput.t) :
  FraudSummaryOutput.model_validate
    (VDict (FraudSummaryOutput.model_dump m)) = inr m.
Proof.
  destruct m as [s ws ps].
  unfold FraudSummaryOutput.model_validate, required; simpl.
  rewrite !validate_items_map. reflexivity.
Qed.

Lemma CuratorState_round_trip (s : CuratorState.t) :
  CuratorState.model_validate (VDict (CuratorState.model_dump s)) = inr s.
Proof.
  destruct s as [t sc pa ft fs b n].
  unfold CuratorState.model_validate, required, optional; simpl.
  rewrite validate_items_map.
  destruct pa, ft, fs, n; reflexivity.
Qed.

(** A node returns the dump of a whole state: updating the state of the
    graph with it replaces every field. *)
Lemma dict_update_dump (s s' : CuratorState.t) :
  dict_update (CuratorState.model_dump s) (CuratorState.model_dump s')
  = CuratorState.model_dump s'.
Proof. reflexivity. Qed.

(** The entries of a stored classification are the fields of the model. *)
Lemma fraud_type_of_dump (m : FraudTypeOutput.t) (w : Log) :
  getitem (Some (FraudTypeOutput.model_dump m)) "fraud_type" w
  = (inr (VStr (FraudTypeOutput.fraud_type m)), w).
Proof. reflexivity. Qed.

Lemma new_type_name_of_dump (m : FraudTypeOutput.t) (w : Log) :
  getitem (Some (FraudTypeOutput.model_dump m)) "new_type_name" w
  = (inr (of_option_str (FraudTypeOutput.new_type_name m)), w).
Proof. reflexivity. Qed.

(** ** The agents and the nodes, equationally *)

Ltac run_monad :=
  unfold bind, ret, raise, try_except, print, emit, validated, invoke_llm;
  simpl.

Lemma validate_and_parse_response_eq (response : PyVal) (w : Log) :
  BaseAgent._validate_and_parse_response response w = (inr response, w).
Proof. reflexivity. Qed.

Lemma analyze_eq (self : PatternAnalysisAgent.t) (text : string) (w : Log) :
  PatternAnalysisAgent.analyze self text w
  = (PatternAnalysisAgent.llm self text, (w ++ [Invoked PatternAgent])%list).
Proof.
  unfold PatternAnalysisAgent.analyze; run_monad.
  destruct (PatternAnalysisAgent.llm self text); reflexivity.
Qed.

Lemma classify_eq (self : FraudTypeAgent.t) (d : option Dict)
  (sc : list string) (w : Log) :
  FraudTypeAgent.classify self d sc w
  = (FraudTypeAgent.llm self d sc, (w ++ [Invoked TypeAgent])%list).
Proof.
  unfold FraudTypeAgent.classify; run_monad.
  destruct (FraudTypeAgent.llm self d sc); reflexivity.
Qed.

Lemma summarize_eq (self : SummaryAgent.t) (a : Dict) (w : Log) :
  SummaryAgent.summarize self a w
  = (SummaryAgent.llm self a, (w ++ [Invoked SummaryAgentName])%list).
Proof.
  unfold SummaryAgent.summarize; run_monad.
  destruct (SummaryAgent.llm self a); reflexivity.
Qed.

Section Nodes.
Variables (d : Dict) (s : CuratorState.t) (w : Log).
Hypothesis state_valid : CuratorState.model_validate (VDict d) = inr s.

Lemma analyze_patterns_eq (pa : PatternAnalysisAgent.t) :
  analyze_patterns pa d w
  = match PatternAnalysisAgent.llm pa (CuratorState.text s) with
    | inl e => (inl e, (w ++ [Invoked PatternAgent])%list)
    | inr r =>
        match PatternAnalysisOutput.model_validate r with
        | inl es =>
            (inl (invalid_answer PatternAgent es),
             (w ++ [Invoked PatternAgent])%list)
        | inr p =>
            (inr (CuratorState.model_dump (after_analysis s p)),
             (w ++ [Invoked PatternAgent])%list)
        end
    end.
Proof.
  unfold analyze_patterns, bind at 1. rewrite state_valid.
  unfold validated at 1, ret at 1, bind at 1. rewrite analyze_eq.
  destruct (PatternAnalysisAgent.llm pa (CuratorState.text s)) as [e|r];
    [reflexivity|].
  run_monad.
  destruct (PatternAnalysisOutput.model_validate r); reflexivity.
Qed.

Lemma classify_type_eq (ta : FraudTypeAgent.t) :
  classify_type ta d w
  = match FraudTypeAgent.llm ta (CuratorState.pattern_analysis s)
            (CuratorState.similar_cases s) with
    | inl e => (inl e, (w ++ [Invoked TypeAgent])%list)
    | inr r =>
        match FraudTypeOutput.model_validate r with
        | inl es =>
            (inl (invalid_answer TypeAgent es),
             (w ++ [Invoked TypeAgent])%list)
        | inr c =>
            (inr (CuratorState.model_dump (after_classification s c)),
             (w ++ [Invoked TypeAgent;
                    Printed (StateAfterClassify (after_classification s c))])%list)
        end
    end.
Proof.
  unfold classify_type, bind at 1. rewrite state_valid.
  unfold validated at 1, ret at 1, bind at 1. rewrite classify_eq.
  destruct (FraudTypeAgent.llm ta _ _) as [e|r]; [reflexivity|].
  run_monad.
  destruct (FraudTypeOutput.model_validate r) as [es|c]; run_monad;
    [reflexivity|].
  rewrite <- app_assoc. reflexivity.
Qed.

Lemma generate_summary_eq (sa : SummaryAgent.t) :
  generate_summary sa d w
  = match SummaryAgent.llm sa
            [ ("pattern_analysis",
               of_option_dict (CuratorState.pattern_analysis s));
              ("fraud_type", of_option_dict (CuratorState.fraud_type s)) ]
    with
    | inl e => (inl e, (w ++ [Invoked SummaryAgentName])%list)
    | inr r =>
        match FraudSummaryOutput.model_validate r with
        | inl es =>
            (inl (invalid_answer SummaryAgentName es),
             (w ++ [Invoked SummaryAgentName])%list)
        | inr m =>
            (inr (CuratorState.model_dump (after_summary s m)),
             (w ++ [Invoked SummaryAgentName; Printed (StateLine s)])%list)
        end
    end.
Proof.
  unfold generate_summary, bind at 1. rewrite state_valid.
  unfold validated at 1, ret at 1, bind at 1. rewrite summarize_eq.
  destruct (SummaryAgent.llm sa _) as [e|r]; [reflexivity|].
  run_monad.
  destruct (FraudSummaryOutput.model_validate r) as [es|m]; run_monad;
    [reflexivity|].
  rewrite <- app_assoc. reflexivity.
Qed.

Lemma should_classify_eq :
  should_classify d w
  = (inr (if CuratorState.is_fraud s then "classify" else "end"), w).
Proof. unfold should_classify, bind. rewrite state_valid. reflexivity. Qed.
End Nodes.

(** ** The steps of the compiled workflow *)

Section Steps.
Variable self : CuratorAgent.t.

Lemma next_after_analyze_patterns (s : CuratorState.t) (w : Log) :
  next_node (CuratorAgent.workflow self) "analyze_patterns" (CuratorState.model_dump s) w
  = (inr (if CuratorState.is_fraud s then "classify_type" else END), w).
Proof.
  unfold next_node; simpl. unfold bind.
  rewrite (should_classify_eq _ s w (CuratorState_round_trip s)).
  destruct (CuratorState.is_fraud s); reflexivity.
Qed.

Lemma step_analyze_patterns (s : CuratorState.t) (w : Log) :
  step (CuratorAgent.workflow self) "analyze_patterns" (CuratorState.model_dump s) w
  = match PatternAnalysisAgent.llm (CuratorAgent.pattern_agent self)
            (CuratorState.text s) with
    | inl e =>
        (inl e, (w ++ [Ran "analyze_patterns"; Invoked PatternAgent])%list)
    | inr r =>
        match PatternAnalysisOutput.model_validate r with
        | inl es =>
            (inl (invalid_answer PatternAgent es),
             (w ++ [Ran "analyze_patterns"; Invoked PatternAgent])%list)
        | inr p =>
            (inr (if PatternAnalysisOutput.is_fraud p
                  then "classify_type" else END,
                  CuratorState.model_dump (after_analysis s p)),
             (w ++ [Ran "analyze_patterns"; Invoked PatternAgent])%list)
        end
    end.
Proof.
  unfold step; simpl. unfold bind at 1, emit at 1. unfold bind at 1.
  rewrite (analyze_patterns_eq _ s _ (CuratorState_round_trip s)).
  destruct (PatternAnalysisAgent.llm _ _) as [e|r];
    [rewrite <- app_assoc; reflexivity|].
  destruct (PatternAnalysisOutput.model_validate r) as [es|p];
    [rewrite <- app_assoc; reflexivity|].
  rewrite dict_update_dump. unfold bind.
  rewrite next_after_analyze_patterns, <- app_assoc. reflexivity.
Qed.

Lemma step_classify_type (s : CuratorState.t) (w : Log) :
  step (CuratorAgent.workflow self) "classify_type" (CuratorState.model_dump s) w
  = match FraudTypeAgent.llm (CuratorAgent.type_agent self)
            (CuratorState.pattern_analysis s)
            (CuratorState.similar_cases s) with
    | inl e =>
        (inl e, (w ++ [Ran "classify_type"; Invoked TypeAgent])%list)
    | inr r =>
        match FraudTypeOutput.model_validate r with
        | inl es =>
            (inl (invalid_answer TypeAgent es),
             (w ++ [Ran "classify_type"; Invoked TypeAgent])%list)
        | inr c =>
            (inr ("generate_summary",
                  CuratorState.model_dump (after_classification s c)),
             (w ++ [Ran "classify_type"; Invoked TypeAgent;
                    Printed (StateAfterClassify (after_classification s c))])%list)
        end
    end.
Proof.
  unfold step; simpl. unfold bind at 1, emit at 1. unfold bind at 1.
  rewrite (classify_type_eq _ s _ (CuratorState_round_trip s)).
  destruct (FraudTypeAgent.llm _ _ _) as [e|r];
    [rewrite <- app_assoc; reflexivity|].
  destruct (FraudTypeOutput.model_validate r) as [es|c];
    [rewrite <- app_assoc; reflexivity|].
  rewrite dict_update_dump, <- app_assoc. reflexivity.
Qed.

Lemma step_generate_summary (s : CuratorState.t) (w : Log) :
  step (CuratorAgent.workflow self) "generate_summary" (CuratorState.model_dump s) w
  = match SummaryAgent.llm (CuratorAgent.summary_agent self)
            [ ("pattern_analysis",
               of_option_dict (CuratorState.pattern_analysis s));
              ("fraud_type", of_option_dict (CuratorState.fraud_type s)) ]
    with
    | inl e =>
        (inl e,
         (w ++ [Ran "generate_summary"; Invoked SummaryAgentName])%list)
    | inr r =>
        match FraudSummaryOutput.model_validate r with
        | inl es =>
            (inl (invalid_answer SummaryAgentName es),
             (w ++ [Ran "generate_summary"; Invoked SummaryAgentName])%list)
        | inr m =>
            (inr (END, CuratorState.model_dump (after_summary s m)),
             (w ++ [Ran "generate_summary"; Invoked SummaryAgentName;
                    Printed (StateLine s)])%list)
        end
    end.
Proof.
  unfold step; simpl. unfold bind at 1, emit at 1. unfold bind at 1.
  rewrite (generate_summary_eq _ s _ (CuratorState_round_trip s)).
  destruct (SummaryAgent.llm _ _) as [e|r];
    [rewrite <- app_assoc; reflexivity|].
  destruct (FraudSummaryOutput.model_validate r) as [es|m];
    [rewrite <- app_assoc; reflexivity|].
  rewrite dict_update_dump, <- app_assoc. reflexivity.
Qed.

End Steps.

(** ** The run of the workflow and the analysis of a case *)

Section Case.
Variables (self : CuratorAgent.t) (now : datetime).
Variables (text_input : TextInput.t) (similar_cases : list string).

Lemma run_S (fuel : nat) (name : string) (state : Dict) (w : Log) :
  run (CuratorAgent.workflow self) (S (S fuel)) name state w
  = match step (CuratorAgent.workflow self) name state w with
    | (inr r, w') =>
        if String.eqb (fst r) END then (inr (snd r), w')
        else run (CuratorAgent.workflow self) (S fuel) (fst r) (snd r) w'
    | (inl e, w') => (inl e, w')
    end.
Proof.
  simpl. unfold bind, ret.
  destruct (step (CuratorAgent.workflow self) name state w) as [[e|r] w'];
    [reflexivity|].
  destruct (fst r =? END); reflexivity.
Qed.

(** With its last step taken, the run stops for want of steps. *)
Lemma run_1 (name : string) (state : Dict) (w : Log) :
  run (CuratorAgent.workflow self) 1 name state w
  = match step (CuratorAgent.workflow self) name state w with
    | (inr r, w') => (inl GraphRecursionError, w')
    | (inl e, w') => (inl e, w')
    end.
Proof.
  simpl. unfold bind, raise.
  destruct (step (CuratorAgent.workflow self) name state w) as [[e|r] w'];
    reflexivity.
Qed.

Lemma classified_fields (p : PatternAnalysisOutput.t)
  (c : FraudTypeOutput.t) :
  let s := classified text_input similar_cases p c in
  CuratorState.pattern_analysis s
    = Some (PatternAnalysisOutput.model_dump p) /\
  CuratorState.fraud_type s = Some (FraudTypeOutput.model_dump c) /\
  CuratorState.is_fraud s = PatternAnalysisOutput.is_fraud p /\
  CuratorState.similar_cases s = similar_cases /\
  CuratorState.final_summary s = None /\
  CuratorState.new_type_name s
    = if String.eqb (FraudTypeOutput.fraud_type c) "NEW"
      then FraudTypeOutput.new_type_name c else None.
Proof.
  unfold classified, after_classification.
  destruct (String.eqb (FraudTypeOutput.fraud_type c) "NEW"); simpl;
    repeat split; reflexivity.
Qed.

(** The run of the workflow from the initial state of the case. *)
Lemma run_eq (fuel : nat) (w : Log) :
  run (CuratorAgent.workflow self) (4 + fuel) "analyze_patterns"
    (CuratorState.model_dump
       (CuratorState.init (TextInput.text text_input) similar_cases)) w
  = match ask_pattern self text_input with
    | inl e => (inl e, (w ++ log_pattern)%list)
    | inr r =>
    match PatternAnalysisOutput.model_validate r with
    | inl es => (inl (invalid_answer PatternAgent es), (w ++ log_pattern)%list)
    | inr p =>
    if PatternAnalysisOutput.is_fraud p then
      match ask_type self similar_cases p with
      | inl e => (inl e, (w ++ log_type)%list)
      | inr r' =>
      match FraudTypeOutput.model_validate r' with
      | inl es => (inl (invalid_answer TypeAgent es), (w ++ log_type)%list)
      | inr c =>
      let s2 := classified text_input similar_cases p c in
      match ask_summary self p c with
      | inl e => (inl e, (w ++ log_summary s2)%list)
      | inr r'' =>
      match FraudSummaryOutput.model_validate r'' with
      | inl es =>
          (inl (invalid_answer SummaryAgentName es),
           (w ++ log_summary s2)%list)
      | inr m =>
          (inr (CuratorState.model_dump
                  (summarised text_input similar_cases p c m)),
           (w ++ log_complete s2)%list)
      end end end end
    else
      (inr (CuratorState.model_dump (analysed text_input similar_cases p)),
       (w ++ log_pattern)%list)
    end end.
Proof.
  change (4 + fuel) with (S (S (S (S fuel)))).
  rewrite run_S. rewrite step_analyze_patterns.
  change (CuratorState.text (CuratorState.init _ _))
    with (TextInput.text text_input).
  fold (ask_pattern self text_input). destruct (ask_pattern self text_input) as [e|r]; [reflexivity|].
  destruct (PatternAnalysisOutput.model_validate r) as [es|p];
    [reflexivity|].
  fold (analysed text_input similar_cases p).
  destruct (PatternAnalysisOutput.is_fraud p) eqn:Hp; [|reflexivity].
  cbn [fst snd]. change ("classify_type" =? END) with false. cbv iota.
  rewrite run_S. rewrite step_classify_type.
  change (FraudTypeAgent.llm _ _ _) with (ask_type self similar_cases p).
  unfold log_complete, log_summary, log_type.
  destruct (ask_type self similar_cases p) as [e|r']; [rewrite !app_assoc; reflexivity|].
  destruct (FraudTypeOutput.model_validate r') as [es|c];
    [rewrite !app_assoc; reflexivity|].
  fold (classified text_input similar_cases p c).
  cbn [fst snd]. change ("generate_summary" =? END) with false. cbv iota.
  rewrite run_S. rewrite step_generate_summary.
  destruct (classified_fields p c) as (Hpa & Hft & _).
  rewrite Hpa, Hft. cbn [of_option_dict].
  fold (summary_request p c). fold (ask_summary self p c).
  destruct (ask_summary self p c) as [e|r''];
    [rewrite <- !app_assoc; reflexivity|].
  destruct (FraudSummaryOutput.model_validate r'') as [es|m];
    [rewrite <- !app_assoc; reflexivity|].
  cbn [fst snd]. change (END =? END) with true. cbv iota.
  rewrite <- !app_assoc. reflexivity.
Qed.
(** The analysis of a case, for every behaviour of the three agents. *)
Lemma analyze_case_eq (w : Log) :
  CuratorAgent.analyze_case self now text_input similar_cases w
  = match ask_pattern self text_input with
    | inl e => (inl e, (w ++ log_pattern)%list)
    | inr r =>
    match PatternAnalysisOutput.model_validate r with
    | inl es => (inl (invalid_answer PatternAgent es), (w ++ log_pattern)%list)
    | inr p =>
    if PatternAnalysisOutput.is_fraud p then
      match ask_type self similar_cases p with
      | inl e => (inl e, (w ++ log_type)%list)
      | inr r' =>
      match FraudTypeOutput.model_validate r' with
      | inl es => (inl (invalid_answer TypeAgent es), (w ++ log_type)%list)
      | inr c =>
      let s2 := classified text_input similar_cases p c in
      match ask_summary self p c with
      | inl e => (inl e, (w ++ log_summary s2)%list)
      | inr r'' =>
      match FraudSummaryOutput.model_validate r'' with
      | inl es =>
          (inl (invalid_answer SummaryAgentName es),
           (w ++ log_summary s2)%list)
      | inr m =>
          (inr (fraud_result now similar_cases p c m),
           (w ++ log_complete s2)%list)
      end end end end
    else
      (inr (no_fraud_result now similar_cases p), (w ++ log_pattern)%list)
    end end.
Proof.
  unfold CuratorAgent.analyze_case, invoke.
  change (entry_point (CuratorAgent.workflow self))
    with (Some "analyze_patterns").
  change recursion_limit with (4 + 21)%nat.
  unfold bind at 1. rewrite run_eq.
  destruct (ask_pattern self text_input) as [e|r]; [reflexivity|].
  destruct (PatternAnalysisOutput.model_validate r) as [es|p];
    [reflexivity|].
  destruct (PatternAnalysisOutput.is_fraud p) eqn:Hp.
  - destruct (ask_type self similar_cases p) as [e|r']; [reflexivity|].
    destruct (FraudTypeOutput.model_validate r') as [es|c]; [reflexivity|].
    cbv zeta.
    destruct (ask_summary self p c) as [e|r'']; [reflexivity|].
    destruct (FraudSummaryOutput.model_validate r'') as [es|m];
      [reflexivity|].
    unfold bind at 1. rewrite CuratorState_round_trip.
    unfold validated at 1, ret at 1.
    destruct (classified_fields p c) as (Hpa & Hft & Hf & _ & _ & Hn).
    unfold summarised, after_summary; cbn [CuratorState.is_fraud
      CuratorState.set_final_summary CuratorState.fraud_type
      CuratorState.final_summary CuratorState.pattern_analysis
      CuratorState.new_type_name].
    rewrite Hf, Hp, Hft, Hpa, Hn.
    unfold fraud_result, py_or, truthy.
    destruct (String.eqb (FraudSummaryOutput.summary m) ""); reflexivity.
  - unfold bind at 1. rewrite CuratorState_round_trip.
    unfold validated at 1, ret at 1.
    unfold analysed, after_analysis; simpl. rewrite Hp. reflexivity.
Qed.
End Case.

Section Outcomes.
Variables (self : CuratorAgent.t) (now : datetime).
Variables (text_input : TextInput.t) (similar_cases : list string).

Lemma analyze_case_no_fraud (p : PatternAnalysisOutput.t) (w : Log) :
  pattern_reports self text_input p ->
  PatternAnalysisOutput.is_fraud p = false ->
  CuratorAgent.analyze_case self now text_input similar_cases w
  = (inr (no_fraud_result now similar_cases p), (w ++ log_pattern)%list).
Proof.
  intros (r & Hr & Hp) Hf.
  rewrite analyze_case_eq, Hr, Hp, Hf. reflexivity.
Qed.

Lemma analyze_case_fraud (p : PatternAnalysisOutput.t)
  (c : FraudTypeOutput.t) (m : FraudSummaryOutput.t) (w : Log) :
  pattern_reports self text_input p ->
  PatternAnalysisOutput.is_fraud p = true ->
  type_reports self similar_cases p c ->
  summary_reports self p c m ->
  CuratorAgent.analyze_case self now text_input similar_cases w
  = (inr (fraud_result now similar_cases p c m),
     (w ++ log_complete (classified text_input similar_cases p c))%list).
Proof.
  intros (r & Hr & Hp) Hf (r' & Hr' & Hc) (r'' & Hr'' & Hm).
  rewrite analyze_case_eq, Hr, Hp, Hf, Hr', Hc. cbv zeta.
  rewrite Hr'', Hm. reflexivity.
Qed.

Lemma invoke_fraud (p : PatternAnalysisOutput.t)
  (c : FraudTypeOutput.t) (m : FraudSummaryOutput.t) (w : Log) :
  pattern_reports self text_input p ->
  PatternAnalysisOutput.is_fraud p = true ->
  type_reports self similar_cases p c ->
  summary_reports self p c m ->
  invoke (CuratorAgent.workflow self)
    (CuratorState.model_dump
       (CuratorState.init (TextInput.text text_input) similar_cases)) w
  = (inr (CuratorState.model_dump
            (summarised text_input similar_cases p c m)),
     (w ++ log_complete (classified text_input similar_cases p c))%list).
Proof.
  intros (r & Hr & Hp) Hf (r' & Hr' & Hc) (r'' & Hr'' & Hm).
  unfold invoke.
  change (entry_point (CuratorAgent.workflow self))
    with (Some "analyze_patterns").
  change recursion_limit with (4 + 21)%nat. cbv beta iota.
  rewrite run_eq, Hr, Hp, Hf, Hr', Hc. cbv zeta.
  rewrite Hr'', Hm. reflexivity.
Qed.

Lemma summarised_fields (p : PatternAnalysisOutput.t)
  (c : FraudTypeOutput.t) (m : FraudSummaryOutput.t) :
  let s := summarised text_input similar_cases p c m in
  CuratorState.pattern_analysis s
    = Some (PatternAnalysisOutput.model_dump p) /\
  CuratorState.fraud_type s = Some (FraudTypeOutput.model_dump c) /\
  CuratorState.is_fraud s = PatternAnalysisOutput.is_fraud p /\
  CuratorState.similar_cases s = similar_cases /\
  CuratorState.final_summary s = Some (FraudSummaryOutput.summary m) /\
  CuratorState.new_type_name s
    = if String.eqb (FraudTypeOutput.fraud_type c) "NEW"
      then FraudTypeOutput.new_type_name c else None.
Proof.
  destruct (classified_fields text_input similar_cases p c)
    as (H1 & H2 & H3 & H4 & _ & H6).
  unfold summarised, after_summary; simpl. auto 10.
Qed.

Lemma reachable_position (name : string) (state : Dict) (w : Log) :
  reachable self text_input similar_cases name state w ->
  position self text_input similar_cases name state.
Proof.
  induction 1 as [|name state w next state' w' _ IH Hstep].
  - constructor.
  - destruct IH as [|p Hp Hf|p c Hp Hf Hc|p Hp Hf|p c m Hp Hf Hc Hm].
    + rewrite step_analyze_patterns in Hstep.
      change (CuratorState.text (CuratorState.init _ _))
        with (TextInput.text text_input) in Hstep.
      destruct (PatternAnalysisAgent.llm _ _) as [e|r] eqn:Hr;
        [discriminate|].
      destruct (PatternAnalysisOutput.model_validate r) as [es|p] eqn:Hp;
        [discriminate|].
      assert (Hrep : pattern_reports self text_input p) by (exists r; auto).
      destruct (PatternAnalysisOutput.is_fraud p) eqn:Hf;
        inversion Hstep; subst.
      * now apply at_classify_type.
      * now apply at_end_no_fraud.
    + rewrite step_classify_type in Hstep.
      change (FraudTypeAgent.llm _ _ _)
        with (FraudTypeAgent.llm (CuratorAgent.type_agent self)
                (Some (PatternAnalysisOutput.model_dump p)) similar_cases)
        in Hstep.
      destruct (FraudTypeAgent.llm _ _ _) as [e|r] eqn:Hr; [discriminate|].
      destruct (FraudTypeOutput.model_validate r) as [es|c] eqn:Hc;
        [discriminate|].
      inversion Hstep; subst.
      apply at_generate_summary; auto. exists r; auto.
    + rewrite step_generate_summary in Hstep.
      destruct (classified_fields text_input similar_cases p c)
        as (Hpa & Hft & _).
      rewrite Hpa, Hft in Hstep. cbn [of_option_dict] in Hstep.
      fold (summary_request p c) in Hstep.
      destruct (SummaryAgent.llm _ _) as [e|r] eqn:Hr; [discriminate|].
      destruct (FraudSummaryOutput.model_validate r) as [es|m] eqn:Hm;
        [discriminate|].
      inversion Hstep; subst.
      apply at_end_fraud; auto. exists r; auto.
    + discriminate.
    + discriminate.
Qed.
End Outcomes.

Section Reaching.
Variables (self : CuratorAgent.t).
Variables (text_input : TextInput.t) (similar_cases : list string).

Lemma reachable_classify_type (p : PatternAnalysisOutput.t) :
  pattern_reports self text_input p ->
  PatternAnalysisOutput.is_fraud p = true ->
  reachable self text_input similar_cases "classify_type"
    (CuratorState.model_dump (analysed text_input similar_cases p))
    log_pattern.
Proof.
  intros (r & Hr & Hp) Hf.
  eapply reach_step; [apply reach_entry|].
  rewrite step_analyze_patterns.
  change (PatternAnalysisAgent.llm _ _) with (ask_pattern self text_input).
  rewrite Hr, Hp, Hf. reflexivity.
Qed.

Lemma reachable_generate_summary (p : PatternAnalysisOutput.t)
  (c : FraudTypeOutput.t) :
  pattern_reports self text_input p ->
  PatternAnalysisOutput.is_fraud p = true ->
  type_reports self similar_cases p c ->
  reachable self text_input similar_cases "generate_summary"
    (CuratorState.model_dump (classified text_input similar_cases p c))
    (log_type ++
     [Printed (StateAfterClassify
                 (classified text_input similar_cases p c))])%list.
Proof.
  intros Hrep Hf (r & Hr & Hc).
  eapply reach_step; [apply (reachable_classify_type p Hrep Hf)|].
  rewrite step_classify_type.
  change (FraudTypeAgent.llm _ _ _) with (ask_type self similar_cases p).
  rewrite Hr, Hc. reflexivity.
Qed.
End Reaching.

(** ** The properties of the workflow *)

(** C1: when the pattern agent reports [is_fraud = false], [analyze_case]
    returns a result with [is_fraud = false], the category ["NO_FRAUD"] and
    the reasoning of the pattern analysis as explanation; only the node
    [analyze_patterns] has run and only the pattern agent was invoked, so
    neither [classify_type] nor [generate_summary] (nor their agents) was. *)
Theorem no_fraud_ends_after_pattern_analysis
  (self : CuratorAgent.t) (now : datetime) (text_input : TextInput.t)
  (similar_cases : list string) (p : PatternAnalysisOutput.t) :
  pattern_reports self text_input p ->
  PatternAnalysisOutput.is_fraud p = false ->
  exists fa w,
    CuratorAgent.analyze_case self now text_input similar_cases []
      = (inr fa, w) /\
    FraudAnalysis.is_fraud fa = false /\
    FraudAnalysis.fraud_type fa = "NO_FRAUD" /\
    FraudAnalysis.explanation fa = PatternAnalysisOutput.reasoning p /\
    nodes_run w = ["analyze_patterns"] /\
    agents_invoked w = [PatternAgent].
Proof.
  intros Hp Hf.
  exists (no_fraud_result now similar_cases p), log_pattern.
  rewrite (analyze_case_no_fraud self now text_input similar_cases p [] Hp Hf).
  repeat split.
Qed.

(** C2 (amended): when the pattern agent reports [is_fraud = true] (and the
    type and summary agents report their models), the result has the
    category reported by the classification step, and its explanation is
    the summary of the terminal state when that summary is a non-empty
    string, and the reasoning of the pattern analysis when it is empty.
    When the pattern agent reports [is_fraud = false], the category is
    ["NO_FRAUD"] and the explanation is the reasoning. *)
Theorem explanation_prefers_nonempty_summary
  (self : CuratorAgent.t) (now : datetime) (text_input : TextInput.t)
  (similar_cases : list string) (p : PatternAnalysisOutput.t) :
  pattern_reports self text_input p ->
  (PatternAnalysisOutput.is_fraud p = true ->
   forall c m,
     type_reports self similar_cases p c ->
     summary_reports self p c m ->
     exists final fa w,
       invoke (CuratorAgent.workflow self)
         (CuratorState.model_dump
            (CuratorState.init (TextInput.text text_input) similar_cases)) []
         = (inr (CuratorState.model_dump final), w) /\
       CuratorState.final_summary final
         = Some (FraudSummaryOutput.summary m) /\
       CuratorAgent.analyze_case self now text_input similar_cases []
         = (inr fa, w) /\
       FraudAnalysis.is_fraud fa = true /\
       FraudAnalysis.fraud_type fa = FraudTypeOutput.fraud_type c /\
       FraudAnalysis.explanation fa
         = if String.eqb (FraudSummaryOutput.summary m) ""
           then PatternAnalysisOutput.reasoning p
           else FraudSummaryOutput.summary m) /\
  (PatternAnalysisOutput.is_fraud p = false ->
   exists fa w,
     CuratorAgent.analyze_case self now text_input similar_cases []
       = (inr fa, w) /\
     FraudAnalysis.is_fraud fa = false /\
     FraudAnalysis.fraud_type fa = "NO_FRAUD" /\
     FraudAnalysis.explanation fa = PatternAnalysisOutput.reasoning p).
Proof.
  intros Hp; split.
  - intros Hf c m Hc Hm.
    exists (summarised text_input similar_cases p c m),
      (fraud_result now similar_cases p c m),
      (log_complete (classified text_input similar_cases p c)).
    rewrite (invoke_fraud self text_input similar_cases p c m [] Hp Hf Hc Hm).
    rewrite (analyze_case_fraud self now text_input similar_cases p c m []
               Hp Hf Hc Hm).
    repeat split.
  - intros Hf.
    exists (no_fraud_result now similar_cases p), log_pattern.
    rewrite (analyze_case_no_fraud self now text_input similar_cases p []
               Hp Hf).
    repeat split.
Qed.

(** C3: when the type agent reports the category ["NEW"], the result's
    [new_type_name] is the one the type agent reported; when it reports any
    other category, the result's [new_type_name] is [None]. *)
Theorem new_type_name_only_for_new
  (self : CuratorAgent.t) (now : datetime) (text_input : TextInput.t)
  (similar_cases : list string) (p : PatternAnalysisOutput.t)
  (c : FraudTypeOutput.t) (m : FraudSummaryOutput.t) :
  pattern_reports self text_input p ->
  PatternAnalysisOutput.is_fraud p = true ->
  type_reports self similar_cases p c ->
  summary_reports self p c m ->
  exists fa w,
    CuratorAgent.analyze_case self now text_input similar_cases []
      = (inr fa, w) /\
    (FraudTypeOutput.fraud_type c = "NEW" ->
     FraudAnalysis.new_type_name fa = FraudTypeOutput.new_type_name c) /\
    (FraudTypeOutput.fraud_type c <> "NEW" ->
     FraudAnalysis.new_type_name fa = None).
Proof.
  intros Hp Hf Hc Hm.
  exists (fraud_result now similar_cases p c m),
    (log_complete (classified text_input similar_cases p c)).
  rewrite (analyze_case_fraud self now text_input similar_cases p c m []
             Hp Hf Hc Hm).
  split; [reflexivity|]. unfold fraud_result; simpl.
  destruct (String.eqb_spec (FraudTypeOutput.fraud_type c) "NEW");
    split; intros; congruence.
Qed.

(** C4: whatever the agents answer and whichever branch is taken, a result
    returned by [analyze_case] carries exactly the list of similar cases it
    was called with; and a node that returns, returns a state with the
    [similar_cases] of the state it received. *)
Theorem similar_cases_are_echoed
  (self : CuratorAgent.t) (now : datetime) (text_input : TextInput.t)
  (similar_cases : list string) :
  (forall w fa w',
     CuratorAgent.analyze_case self now text_input similar_cases w
       = (inr fa, w') ->
     FraudAnalysis.similar_cases fa = similar_cases) /\
  (forall d s w d' w',
     CuratorState.model_validate (VDict d) = inr s ->
     analyze_patterns (CuratorAgent.pattern_agent self) d w = (inr d', w') \/
     classify_type (CuratorAgent.type_agent self) d w = (inr d', w') \/
     generate_summary (CuratorAgent.summary_agent self) d w = (inr d', w') ->
     exists s',
       d' = CuratorState.model_dump s' /\
       CuratorState.similar_cases s' = CuratorState.similar_cases s).
Proof.
  split.
  - intros w fa w' H. rewrite analyze_case_eq in H.
    destruct (ask_pattern _ _) as [e|r]; [discriminate|].
    destruct (PatternAnalysisOutput.model_validate r) as [es|p];
      [discriminate|].
    destruct (PatternAnalysisOutput.is_fraud p).
    + destruct (ask_type _ _ _) as [e|r']; [discriminate|].
      destruct (FraudTypeOutput.model_validate r') as [es|c]; [discriminate|].
      cbv zeta in H.
      destruct (ask_summary _ _ _) as [e|r'']; [discriminate|].
      destruct (FraudSummaryOutput.model_validate r'') as [es|m];
        [discriminate|].
      inversion H; subst. reflexivity.
    + inversion H; subst. reflexivity.
  - intros d s w d' w' Hs [H|[H|H]].
    + rewrite (analyze_patterns_eq d s w Hs) in H.
      destruct (PatternAnalysisAgent.llm _ _) as [e|r]; [discriminate|].
      destruct (PatternAnalysisOutput.model_validate r) as [es|p];
        [discriminate|].
      inversion H; subst. eexists; split; reflexivity.
    + rewrite (classify_type_eq d s w Hs) in H.
      destruct (FraudTypeAgent.llm _ _ _) as [e|r]; [discriminate|].
      destruct (FraudTypeOutput.model_validate r) as [es|c]; [discriminate|].
      inversion H; subst. eexists; split; [reflexivity|].
      unfold after_classification.
      destruct (String.eqb (FraudTypeOutput.fraud_type c) "NEW"); reflexivity.
    + rewrite (generate_summary_eq d s w Hs) in H.
      destruct (SummaryAgent.llm _ _) as [e|r]; [discriminate|].
      destruct (FraudSummaryOutput.model_validate r) as [es|m];
        [discriminate|].
      inversion H; subst. eexists; split; reflexivity.
Qed.

(** C5 (amended): when the pattern agent reports [is_fraud = true], the
    workflow runs [classify_type] and invokes the type agent exactly once,
    right after the pattern analysis. When the answer of the type agent is
    accepted, it then runs [generate_summary] and invokes the summary agent
    exactly once, and when that answer is accepted too the analysis returns
    its result; when the classification step fails, the analysis is
    aborted there and the summary agent is not invoked. In every analysis
    no node runs twice and no agent is invoked twice. *)
Theorem fraud_runs_each_node_once_in_order
  (self : CuratorAgent.t) (now : datetime) (text_input : TextInput.t)
  (similar_cases : list string) :
  (forall p c m,
     pattern_reports self text_input p ->
     PatternAnalysisOutput.is_fraud p = true ->
     type_reports self similar_cases p c ->
     summary_reports self p c m ->
     exists fa w,
       CuratorAgent.analyze_case self now text_input similar_cases []
         = (inr fa, w) /\
       nodes_run w
         = ["analyze_patterns"; "classify_type"; "generate_summary"] /\
       agents_invoked w = [PatternAgent; TypeAgent; SummaryAgentName]) /\
  (forall p r w,
     pattern_reports self text_input p ->
     PatternAnalysisOutput.is_fraud p = true ->
     CuratorAgent.analyze_case self now text_input similar_cases [] = (r, w) ->
     (exists c,
        type_reports self similar_cases p c /\
        nodes_run w
          = ["analyze_patterns"; "classify_type"; "generate_summary"] /\
        agents_invoked w = [PatternAgent; TypeAgent; SummaryAgentName]) \/
     ((forall c, ~ type_reports self similar_cases p c) /\
      (exists e, r = inl e) /\
      nodes_run w = ["analyze_patterns"; "classify_type"] /\
      agents_invoked w = [PatternAgent; TypeAgent])) /\
  (forall r w,
     CuratorAgent.analyze_case self now text_input similar_cases [] = (r, w) ->
     NoDup (nodes_run w) /\ NoDup (agents_invoked w) /\
     exists rest,
       (nodes_run w ++ rest)%list
       = ["analyze_patterns"; "classify_type"; "generate_summary"]).
Proof.
  split; [|split].
  - intros p c m Hp Hf Hc Hm.
    exists (fraud_result now similar_cases p c m),
      (log_complete (classified text_input similar_cases p c)).
    rewrite (analyze_case_fraud self now text_input similar_cases p c m []
               Hp Hf Hc Hm).
    repeat split.
  - intros p r w (rp & Hr & Hp) Hf H.
    rewrite analyze_case_eq, Hr, Hp, Hf in H.
    destruct (ask_type _ _ _) as [e|r'] eqn:Hr'.
    { inversion H; subst. right. split.
      - intros c (r0 & H0 & _). congruence.
      - split; [eexists; reflexivity|]. split; reflexivity. }
    destruct (FraudTypeOutput.model_validate r') as [es|c] eqn:Hc.
    { inversion H; subst. right. split.
      - intros c (r0 & H0 & H1). congruence.
      - split; [eexists; reflexivity|]. split; reflexivity. }
    left. exists c. split; [exists r'; auto|].
    cbv zeta in H.
    destruct (ask_summary _ _ _) as [e|r''];
      [inversion H; subst; split; reflexivity|].
    destruct (FraudSummaryOutput.model_validate r'') as [es|m];
      inversion H; subst; split; reflexivity.
  - assert (N3 : NoDup ["analyze_patterns"; "classify_type";
                        "generate_summary"])
      by (repeat constructor; simpl; intuition discriminate).
    assert (N2 : NoDup ["analyze_patterns"; "classify_type"])
      by (repeat constructor; simpl; intuition discriminate).
    assert (N1 : NoDup ["analyze_patterns"])
      by (repeat constructor; simpl; intuition discriminate).
    assert (A3 : NoDup [PatternAgent; TypeAgent; SummaryAgentName])
      by (repeat constructor; simpl; intuition discriminate).
    assert (A2 : NoDup [PatternAgent; TypeAgent])
      by (repeat constructor; simpl; intuition discriminate).
    assert (A1 : NoDup [PatternAgent])
      by (repeat constructor; simpl; intuition discriminate).
    intros r w H. rewrite analyze_case_eq in H.
    destruct (ask_pattern _ _) as [e|rp].
    { inversion H; subst. simpl. repeat split; auto.
      now exists ["classify_type"; "generate_summary"]. }
    destruct (PatternAnalysisOutput.model_validate rp) as [es|p].
    { inversion H; subst. simpl. repeat split; auto.
      now exists ["classify_type"; "generate_summary"]. }
    destruct (PatternAnalysisOutput.is_fraud p).
    2:{ inversion H; subst. simpl. repeat split; auto.
        now exists ["classify_type"; "generate_summary"]. }
    destruct (ask_type _ _ _) as [e|rc].
    { inversion H; subst. simpl. repeat split; auto.
      now exists ["generate_summary"]. }
    destruct (FraudTypeOutput.model_validate rc) as [es|c].
    { inversion H; subst. simpl. repeat split; auto.
      now exists ["generate_summary"]. }
    cbv zeta in H.
    destruct (ask_summary _ _ _) as [e|rs].
    { inversion H; subst. simpl. repeat split; auto. now exists []. }
    destruct (FraudSummaryOutput.model_validate rs) as [es|m].
    { inversion H; subst. simpl. repeat split; auto. now exists []. }
    inversion H; subst. simpl. repeat split; auto. now exists [].
Qed.

(** C6: in every configuration the run of the workflow reaches in the
    analysis of a case, the state has [fraud_type] and [new_type_name]
    populated only if [is_fraud] is true; the step of [analyze_patterns]
    sets [is_fraud] to what the pattern agent reported, and the step of any
    later node leaves [is_fraud] as it was. *)
Theorem fraud_flag_invariant
  (self : CuratorAgent.t) (text_input : TextInput.t)
  (similar_cases : list string) (name : string) (state : Dict) (w : Log) :
  reachable self text_input similar_cases name state w ->
  exists s,
    CuratorState.model_validate (VDict state) = inr s /\
    (CuratorState.fraud_type s <> None -> CuratorState.is_fraud s = true) /\
    (CuratorState.new_type_name s <> None -> CuratorState.is_fraud s = true) /\
    (forall next state' w',
       step (CuratorAgent.workflow self) name state w
         = (inr (next, state'), w') ->
       exists s',
         CuratorState.model_validate (VDict state') = inr s' /\
         (name = "analyze_patterns" ->
          exists p,
            pattern_reports self text_input p /\
            CuratorState.is_fraud s' = PatternAnalysisOutput.is_fraud p) /\
         (name <> "analyze_patterns" ->
          CuratorState.is_fraud s' = CuratorState.is_fraud s)).
Proof.
  intro Hreach. apply reachable_position in Hreach.
  destruct Hreach as [|p Hp Hf|p c Hp Hf Hc|p Hp Hf|p c m Hp Hf Hc Hm].
  - eexists; split; [apply CuratorState_round_trip|].
    split; [intro H; now contradiction H|].
    split; [intro H; now contradiction H|].
    intros next state' w' Hstep.
    rewrite step_analyze_patterns in Hstep.
    change (CuratorState.text (CuratorState.init _ _))
      with (TextInput.text text_input) in Hstep.
    destruct (PatternAnalysisAgent.llm _ _) as [e|r] eqn:Hr; [discriminate|].
    destruct (PatternAnalysisOutput.model_validate r) as [es|p] eqn:Hp;
      [discriminate|].
    inversion Hstep; subst.
    eexists; split; [apply CuratorState_round_trip|].
    split; [|intro H; now contradiction H].
    intros _. exists p; split; [exists r; auto|reflexivity].
  - eexists; split; [apply CuratorState_round_trip|].
    split; [intro H; now contradiction H|].
    split; [intro H; now contradiction H|].
    intros next state' w' Hstep.
    rewrite step_classify_type in Hstep.
    destruct (FraudTypeAgent.llm _ _ _) as [e|r]; [discriminate|].
    destruct (FraudTypeOutput.model_validate r) as [es|c]; [discriminate|].
    inversion Hstep; subst.
    eexists; split; [apply CuratorState_round_trip|].
    split; [discriminate|]. intros _.
    unfold after_classification.
    destruct (String.eqb (FraudTypeOutput.fraud_type c) "NEW"); reflexivity.
  - destruct (classified_fields text_input similar_cases p c)
      as (_ & _ & Hfl & _).
    eexists; split; [apply CuratorState_round_trip|].
    split; [intros _; now rewrite Hfl|].
    split; [intros _; now rewrite Hfl|].
    intros next state' w' Hstep.
    rewrite step_generate_summary in Hstep.
    destruct (SummaryAgent.llm _ _) as [e|r]; [discriminate|].
    destruct (FraudSummaryOutput.model_validate r) as [es|m]; [discriminate|].
    inversion Hstep; subst.
    eexists; split; [apply CuratorState_round_trip|].
    split; [discriminate|]. intros _. reflexivity.
  - eexists; split; [apply CuratorState_round_trip|].
    split; [intro H; now contradiction H|].
    split; [intro H; now contradiction H|].
    intros next state' w' Hstep. discriminate.
  - destruct (summarised_fields text_input similar_cases p c m)
      as (_ & _ & Hfl & _).
    eexists; split; [apply CuratorState_round_trip|].
    split; [intros _; now rewrite Hfl|].
    split; [intros _; now rewrite Hfl|].
    intros next state' w' Hstep. discriminate.
Qed.

(** C7 (amended): the schema of [FraudTypeOutput] only checks the types
    of the fields. A value is accepted exactly when it is a dictionary
    whose [fraud_type] and [explanation] entries are strings and whose
    [new_type_name] entry is a string, [None] or absent; the accepted
    instance has these entries as its fields, whatever the other keys and
    the order of the keys are. No relation between the name and the
    category ["NEW"] is enforced: every combination of category,
    explanation and optional name is accepted as it is. *)
Theorem fraud_type_output_accepts_every_combination :
  (forall (v : PyVal) (m : FraudTypeOutput.t),
     FraudTypeOutput.model_validate v = inr m <->
     exists d,
       v = VDict d /\
       dict_get "fraud_type" d = Some (VStr (FraudTypeOutput.fraud_type m)) /\
       dict_get "explanation" d
         = Some (VStr (FraudTypeOutput.explanation m)) /\
       (dict_get "new_type_name" d = None /\
        FraudTypeOutput.new_type_name m = None \/
        dict_get "new_type_name" d
          = Some (of_option_str (FraudTypeOutput.new_type_name m)))) /\
  (forall (fraud_type explanation : string) (new_type_name : option string),
     FraudTypeOutput.model_validate
       (VDict [ ("fraud_type", VStr fraud_type);
                ("explanation", VStr explanation);
                ("new_type_name", of_option_str new_type_name) ])
     = inr {| FraudTypeOutput.fraud_type := fraud_type;
              FraudTypeOutput.explanation := explanation;
              FraudTypeOutput.new_type_name := new_type_name |}
     /\
     FraudTypeOutput.model_validate
       (VDict [ ("fraud_type", VStr fraud_type);
                ("explanation", VStr explanation) ])
     = inr {| FraudTypeOutput.fraud_type := fraud_type;
              FraudTypeOutput.explanation := explanation;
              FraudTypeOutput.new_type_name := None |}).
Proof.
  split.
  - intros v m; split.
    + destruct v as [| | | |l|d]; try discriminate.
      unfold FraudTypeOutput.model_validate, required, optional.
      destruct (dict_get "fraud_type" d) as [[| | |f| |]|] eqn:Hf;
        destruct (dict_get "explanation" d) as [[| | |e| |]|] eqn:He;
        destruct (dict_get "new_type_name" d) as [[| | |n| |]|] eqn:Hn;
        simpl; intro H; try discriminate;
        inversion H; subst; exists d; simpl;
        (split; [reflexivity|]); (split; [assumption|]);
        (split; [assumption|]);
        first [left; split; [assumption|reflexivity] | right; assumption].
    + intros (d & -> & Hf & He & Hn).
      unfold FraudTypeOutput.model_validate, required, optional.
      rewrite Hf, He. destruct m as [f e n]; simpl in *.
      destruct Hn as [[Hn Hm]|Hn]; rewrite Hn.
      * rewrite Hm. reflexivity.
      * destruct n; reflexivity.
  - intros fraud_type explanation new_type_name.
    destruct new_type_name; split; reflexivity.
Qed.

(** C8: when the answer of an agent is rejected by its schema, the node of
    that agent (reached by the run) raises a [ValueError] whose message
    names the agent and carries the validation error; [analyze_case] raises
    that same error, returns no result, and no node runs after the failing
    one. *)
Theorem invalid_answer_aborts_analysis
  (self : CuratorAgent.t) (now : datetime) (text_input : TextInput.t)
  (similar_cases : list string) (a : AgentName) (es : list LineError) :
  validation_fails self text_input similar_cases a es ->
  exists action state w0 w,
    assoc (node_of a) (nodes (CuratorAgent.workflow self)) = Some action /\
    reachable self text_input similar_cases (node_of a) state w0 /\
    action state (w0 ++ [Ran (node_of a)])%list
      = (inl (ValueError (validation_message a)
                (ValidationError (schema_of a) es)), w) /\
    CuratorAgent.analyze_case self now text_input similar_cases []
      = (inl (ValueError (validation_message a)
                (ValidationError (schema_of a) es)), w) /\
    nodes_run w = path_to a.
Proof.
  intros [r es' Hr Hv|p r es' Hp Hf Hr Hv|p c r es' Hp Hf Hc Hr Hv].
  - eexists _, _, _, _. split; [reflexivity|].
    split; [apply reach_entry|].
    rewrite (analyze_patterns_eq _ _ _ (CuratorState_round_trip _)).
    rewrite analyze_case_eq.
    change (PatternAnalysisAgent.llm _ _) with (ask_pattern self text_input).
    rewrite Hr, Hv. repeat split.
  - eexists _, _, _, _. split; [reflexivity|].
    split; [apply (reachable_classify_type _ _ _ p Hp Hf)|].
    rewrite (classify_type_eq _ _ _ (CuratorState_round_trip _)).
    rewrite analyze_case_eq.
    destruct Hp as (rp & Hrp & Hp).
    rewrite Hrp, Hp, Hf.
    change (FraudTypeAgent.llm _ _ _) with (ask_type self similar_cases p).
    rewrite Hr, Hv. repeat split.
  - eexists _, _, _, _. split; [reflexivity|].
    split; [apply (reachable_generate_summary _ _ _ p c Hp Hf Hc)|].
    rewrite (generate_summary_eq _ _ _ (CuratorState_round_trip _)).
    rewrite analyze_case_eq.
    destruct Hp as (rp & Hrp & Hp). destruct Hc as (rc & Hrc & Hc).
    rewrite Hrp, Hp, Hf, Hrc, Hc. cbv zeta.
    destruct (classified_fields text_input similar_cases p c)
      as (Hpa & Hft & _).
    rewrite Hpa, Hft. cbn [of_option_dict].
    change (SummaryAgent.llm _ _) with (ask_summary self p c).
    rewrite Hr, Hv. unfold log_summary. rewrite <- !app_assoc.
    repeat split.
Qed.

(** C9 (amended): [_validate_and_parse_response] never raises and prints
    nothing: it returns the response it is given, unchanged, whatever the
    response is. An agent therefore returns or raises exactly what the
    invocation of the model returned or raised, with nothing attached, and
    the only trace it leaves is the invocation itself. *)
Theorem response_is_returned_unchanged :
  (forall response w,
     BaseAgent._validate_and_parse_response response w = (inr response, w)) /\
  (forall self text w,
     PatternAnalysisAgent.analyze self text w
     = (PatternAnalysisAgent.llm self text,
        (w ++ [Invoked PatternAgent])%list)) /\
  (forall self description similar_cases w,
     FraudTypeAgent.classify self description similar_cases w
     = (FraudTypeAgent.llm self description similar_cases,
        (w ++ [Invoked TypeAgent])%list)) /\
  (forall self analysis w,
     SummaryAgent.summarize self analysis w
     = (SummaryAgent.llm self analysis,
        (w ++ [Invoked SummaryAgentName])%list)).
Proof.
  split; [reflexivity|].
  split; [exact analyze_eq|].
  split; [exact classify_eq|exact summarize_eq].
Qed.

(** C10: when the workflow ends in a state with [is_fraud = true] and the
    empty string as [final_summary], [analyze_case] returns a result whose
    explanation is the reasoning stored in the state's pattern analysis:
    the empty summary is passed over like an absent one. *)
Theorem empty_summary_falls_back_to_reasoning
  (self : CuratorAgent.t) (now : datetime) (text_input : TextInput.t)
  (similar_cases : list string) (final : Dict) (w : Log)
  (s : CuratorState.t) :
  invoke (CuratorAgent.workflow self)
    (CuratorState.model_dump
       (CuratorState.init (TextInput.text text_input) similar_cases)) []
    = (inr final, w) ->
  CuratorState.model_validate (VDict final) = inr s ->
  CuratorState.is_fraud s = true ->
  CuratorState.final_summary s = Some "" ->
  exists fa pattern_analysis,
    CuratorAgent.analyze_case self now text_input similar_cases []
      = (inr fa, w) /\
    FraudAnalysis.is_fraud fa = true /\
    CuratorState.pattern_analysis s = Some pattern_analysis /\
    dict_get "reasoning" pattern_analysis
      = Some (VStr (FraudAnalysis.explanation fa)).
Proof.
  intros Hrun Hs Hf Hsum.
  unfold invoke in Hrun.
  change (entry_point (CuratorAgent.workflow self))
    with (Some "analyze_patterns") in Hrun.
  change recursion_limit with (4 + 21)%nat in Hrun. cbv beta iota in Hrun.
  rewrite run_eq in Hrun. rewrite analyze_case_eq.
  destruct (ask_pattern _ _) as [e|r]; [discriminate|].
  destruct (PatternAnalysisOutput.model_validate r) as [es|p];
    [discriminate|].
  destruct (PatternAnalysisOutput.is_fraud p) eqn:Hp.
  - destruct (ask_type _ _ _) as [e|r']; [discriminate|].
    destruct (FraudTypeOutput.model_validate r') as [es|c]; [discriminate|].
    cbv zeta in Hrun |- *.
    destruct (ask_summary _ _ _) as [e|r'']; [discriminate|].
    destruct (FraudSummaryOutput.model_validate r'') as [es|m];
      [discriminate|].
    inversion Hrun; subst final w; clear Hrun.
    rewrite CuratorState_round_trip in Hs. inversion Hs; subst s; clear Hs.
    destruct (summarised_fields text_input similar_cases p c m)
      as (Hpa & _ & _ & _ & Hfs & _).
    rewrite Hfs in Hsum. inversion Hsum as [Hm].
    exists (fraud_result now similar_cases p c m),
      (PatternAnalysisOutput.model_dump p).
    split; [reflexivity|]. split; [reflexivity|]. split; [exact Hpa|].
    unfold fraud_result; simpl. rewrite Hm. reflexivity.
  - inversion Hrun; subst final w; clear Hrun.
    rewrite CuratorState_round_trip in Hs. inversion Hs; subst s; clear Hs.
    unfold analysed, after_analysis in Hf; simpl in Hf. congruence.
Qed.

(** ** The properties at sample cases *)

Lemma honest_reported :
  pattern_reports Sample.honest_curator Sample.case Sample.honest.
Proof. eexists; split; reflexivity. Defined.

Lemma fraud_reported (c s : Exn + PyVal) :
  pattern_reports (Sample.curator (Sample.says_pattern Sample.fraud) c s)
    Sample.case Sample.fraud.
Proof. eexists; split; reflexivity. Defined.

Lemma type_reported (t : FraudTypeOutput.t) (p s : Exn + PyVal) :
  type_reports (Sample.curator p (Sample.says_type t) s)
    Sample.known Sample.fraud t.
Proof.
  eexists; split; [reflexivity|apply FraudTypeOutput_round_trip].
Defined.

Lemma summary_reported (m : string) (t : FraudTypeOutput.t)
  (p c : Exn + PyVal) :
  summary_reports (Sample.curator p c (Sample.says_summary (Sample.summary m)))
    Sample.fraud t (Sample.summary m).
Proof. eexists; split; reflexivity. Defined.

Lemma no_fraud_ends_after_pattern_analysis_witness :
  pattern_reports Sample.honest_curator Sample.case Sample.honest /\
  PatternAnalysisOutput.is_fraud Sample.honest = false /\
  exists fa w,
    CuratorAgent.analyze_case Sample.honest_curator Sample.now Sample.case
      Sample.known [] = (inr fa, w) /\
    FraudAnalysis.is_fraud fa = false /\
    FraudAnalysis.fraud_type fa = "NO_FRAUD" /\
    FraudAnalysis.explanation fa = "a price disagreement" /\
    nodes_run w = ["analyze_patterns"] /\
    agents_invoked w = [PatternAgent].
Proof.
  split; [exact honest_reported|]. split; [reflexivity|].
  apply (no_fraud_ends_after_pattern_analysis Sample.honest_curator
           Sample.now Sample.case Sample.known Sample.honest).
  - exact honest_reported.
  - reflexivity.
Defined.

(** A summary exists in the terminal state, and the explanation is not it. *)
Lemma empty_summary_is_not_the_explanation :
  exists final s w fa,
    invoke (CuratorAgent.workflow Sample.terse_curator)
      (CuratorState.model_dump
         (CuratorState.init (TextInput.text Sample.case) Sample.known)) []
      = (inr final, w) /\
    CuratorState.model_validate (VDict final) = inr s /\
    CuratorState.is_fraud s = true /\
    CuratorState.final_summary s = Some "" /\
    CuratorAgent.analyze_case Sample.terse_curator Sample.now Sample.case
      Sample.known [] = (inr fa, w) /\
    FraudAnalysis.explanation fa = "asks for a password reset" /\
    CuratorState.final_summary s <> Some (FraudAnalysis.explanation fa).
Proof.
  eexists _, _, _, _.
  split; [reflexivity|]. split; [reflexivity|]. split; [reflexivity|].
  split; [reflexivity|]. split; [reflexivity|]. split; [reflexivity|].
  discriminate.
Qed.

Lemma explanation_prefers_nonempty_summary_witness :
  pattern_reports Sample.phishing_curator Sample.case Sample.fraud /\
  PatternAnalysisOutput.is_fraud Sample.fraud = true /\
  type_reports Sample.phishing_curator Sample.known Sample.fraud
    Sample.phishing /\
  summary_reports Sample.phishing_curator Sample.fraud Sample.phishing
    (Sample.summary "Beware of reset links.") /\
  exists final fa w,
    invoke (CuratorAgent.workflow Sample.phishing_curator)
      (CuratorState.model_dump
         (CuratorState.init (TextInput.text Sample.case) Sample.known)) []
      = (inr (CuratorState.model_dump final), w) /\
    CuratorState.final_summary final = Some "Beware of reset links." /\
    CuratorAgent.analyze_case Sample.phishing_curator Sample.now Sample.case
      Sample.known [] = (inr fa, w) /\
    FraudAnalysis.is_fraud fa = true /\
    FraudAnalysis.fraud_type fa = "PHISHING" /\
    FraudAnalysis.explanation fa = "Beware of reset links.".
Proof.
  split; [apply fraud_reported|]. split; [reflexivity|].
  split; [apply type_reported|]. split; [apply summary_reported|].
  apply (proj1 (explanation_prefers_nonempty_summary Sample.phishing_curator
                  Sample.now Sample.case Sample.known Sample.fraud
                  (fraud_reported _ _)) eq_refl
           Sample.phishing (Sample.summary "Beware of reset links.")).
  - apply type_reported.
  - apply summary_reported.
Defined.

Lemma new_type_name_only_for_new_witness :
  pattern_reports Sample.novel_curator Sample.case Sample.fraud /\
  PatternAnalysisOutput.is_fraud Sample.fraud = true /\
  type_reports Sample.novel_curator Sample.known Sample.fraud Sample.novel /\
  summary_reports Sample.novel_curator Sample.fraud Sample.novel
    (Sample.summary "Beware of loan offers.") /\
  exists fa w,
    CuratorAgent.analyze_case Sample.novel_curator Sample.now Sample.case
      Sample.known [] = (inr fa, w) /\
    ("NEW" = "NEW" ->
     FraudAnalysis.new_type_name fa
       = Some "SYNTHETIC IDENTITY LOAN STACKING") /\
    ("NEW" <> "NEW" -> FraudAnalysis.new_type_name fa = None).
Proof.
  split; [apply fraud_reported|]. split; [reflexivity|].
  split; [apply type_reported|]. split; [apply summary_reported|].
  apply (new_type_name_only_for_new Sample.novel_curator Sample.now
           Sample.case Sample.known Sample.fraud Sample.novel
           (Sample.summary "Beware of loan offers.")).
  - apply fraud_reported.
  - reflexivity.
  - apply type_reported.
  - apply summary_reported.
Defined.

Lemma similar_cases_are_echoed_witness :
  exists fa w,
    CuratorAgent.analyze_case Sample.phishing_curator Sample.now Sample.case
      Sample.known [] = (inr fa, w) /\
    FraudAnalysis.similar_cases fa = ["PHISHING"; "ADVANCE FEE"].
Proof.
  eexists _, _. split; [reflexivity|].
  eapply (proj1 (similar_cases_are_echoed Sample.phishing_curator Sample.now
                   Sample.case Sample.known) []).
  reflexivity.
Defined.

(** Fraud is reported, the answer of the type agent is rejected, and the
    summary agent is never invoked. *)
Lemma rejected_type_answer_skips_summary :
  pattern_reports Sample.broken_curator Sample.case Sample.fraud /\
  PatternAnalysisOutput.is_fraud Sample.fraud = true /\
  exists e w,
    CuratorAgent.analyze_case Sample.broken_curator Sample.now Sample.case
      Sample.known [] = (inl e, w) /\
    nodes_run w = ["analyze_patterns"; "classify_type"] /\
    agents_invoked w = [PatternAgent; TypeAgent] /\
    ~ In SummaryAgentName (agents_invoked w).
Proof.
  split; [apply fraud_reported|]. split; [reflexivity|].
  eexists _, _. split; [reflexivity|]. split; [reflexivity|].
  split; [reflexivity|].
  simpl. intros [H|[H|[]]]; discriminate.
Qed.

Lemma fraud_runs_each_node_once_in_order_witness :
  pattern_reports Sample.phishing_curator Sample.case Sample.fraud /\
  PatternAnalysisOutput.is_fraud Sample.fraud = true /\
  type_reports Sample.phishing_curator Sample.known Sample.fraud
    Sample.phishing /\
  summary_reports Sample.phishing_curator Sample.fraud Sample.phishing
    (Sample.summary "Beware of reset links.") /\
  exists fa w,
    CuratorAgent.analyze_case Sample.phishing_curator Sample.now Sample.case
      Sample.known [] = (inr fa, w) /\
    nodes_run w = ["analyze_patterns"; "classify_type"; "generate_summary"] /\
    agents_invoked w = [PatternAgent; TypeAgent; SummaryAgentName].
Proof.
  split; [apply fraud_reported|]. split; [reflexivity|].
  split; [apply type_reported|]. split; [apply summary_reported|].
  apply (proj1 (fraud_runs_each_node_once_in_order Sample.phishing_curator
                  Sample.now Sample.case Sample.known)
           Sample.fraud Sample.phishing
           (Sample.summary "Beware of reset links.")).
  - apply fraud_reported.
  - reflexivity.
  - apply type_reported.
  - apply summary_reported.
Defined.

Lemma fraud_flag_invariant_witness :
  reachable Sample.phishing_curator Sample.case Sample.known "classify_type"
    (CuratorState.model_dump
       (analysed Sample.case Sample.known Sample.fraud)) log_pattern /\
  exists s,
    CuratorState.model_validate
      (VDict (CuratorState.model_dump
                (analysed Sample.case Sample.known Sample.fraud))) = inr s /\
    (CuratorState.fraud_type s <> None -> CuratorState.is_fraud s = true) /\
    (CuratorState.new_type_name s <> None -> CuratorState.is_fraud s = true) /\
    (forall next state' w',
       step (CuratorAgent.workflow Sample.phishing_curator) "classify_type"
         (CuratorState.model_dump
            (analysed Sample.case Sample.known Sample.fraud)) log_pattern
         = (inr (next, state'), w') ->
       exists s',
         CuratorState.model_validate (VDict state') = inr s' /\
         ("classify_type" = "analyze_patterns" ->
          exists p,
            pattern_reports Sample.phishing_curator Sample.case p /\
            CuratorState.is_fraud s' = PatternAnalysisOutput.is_fraud p) /\
         ("classify_type" <> "analyze_patterns" ->
          CuratorState.is_fraud s' = CuratorState.is_fraud s)).
Proof.
  assert (H : reachable Sample.phishing_curator Sample.case Sample.known
                "classify_type"
                (CuratorState.model_dump
                   (analysed Sample.case Sample.known Sample.fraud))
                log_pattern).
  { eapply reach_step; [apply reach_entry|reflexivity]. }
  split; [exact H|].
  exact (fraud_flag_invariant Sample.phishing_curator Sample.case
           Sample.known "classify_type" _ log_pattern H).
Defined.

Lemma named_but_not_new_is_accepted :
  FraudTypeOutput.model_validate
    (VDict [ ("fraud_type", VStr "PHISHING");
             ("explanation", VStr "credential theft");
             ("new_type_name", VStr "LOOKALIKE DOMAIN") ])
  = inr {| FraudTypeOutput.fraud_type := "PHISHING";
           FraudTypeOutput.explanation := "credential theft";
           FraudTypeOutput.new_type_name := Some "LOOKALIKE DOMAIN" |}
  /\ "LOOKALIKE DOMAIN" <> ""
  /\ "PHISHING" <> "NEW"
  /\ FraudTypeOutput.model_validate
       (VDict [ ("fraud_type", VStr "NEW");
                ("explanation", VStr "no category fits") ])
     = inr {| FraudTypeOutput.fraud_type := "NEW";
              FraudTypeOutput.explanation := "no category fits";
              FraudTypeOutput.new_type_name := None |}.
Proof.
  split; [reflexivity|]. split; [discriminate|]. split; [discriminate|].
  reflexivity.
Qed.

Lemma fraud_type_output_accepts_every_combination_witness :
  FraudTypeOutput.model_validate
    (VDict [ ("new_type_name", VStr "LOOKALIKE DOMAIN");
             ("confidence", VInt 9);
             ("explanation", VStr "credential theft");
             ("fraud_type", VStr "PHISHING") ])
  = inr {| FraudTypeOutput.fraud_type := "PHISHING";
           FraudTypeOutput.explanation := "credential theft";
           FraudTypeOutput.new_type_name := Some "LOOKALIKE DOMAIN" |} /\
  FraudTypeOutput.model_validate
    (VDict [ ("fraud_type", VStr "NEW"); ("explanation", VInt 0) ])
  <> inr {| FraudTypeOutput.fraud_type := "NEW";
            FraudTypeOutput.explanation := "";
            FraudTypeOutput.new_type_name := None |}.
Proof.
  split.
  - apply (proj2 (proj1 fraud_type_output_accepts_every_combination _ _)).
    eexists. split; [reflexivity|]. split; [reflexivity|].
    split; [reflexivity|]. right; reflexivity.
  - intro H.
    apply (proj1 (proj1 fraud_type_output_accepts_every_combination _ _))
      in H.
    destruct H as (d & Hd & _ & He & _).
    inversion Hd; subst d. discriminate He.
Defined.

Lemma invalid_answer_aborts_analysis_witness :
  validation_fails Sample.broken_curator Sample.case Sample.known TypeAgent
    [ {| loc := []; err := model_type |} ] /\
  exists action state w0 w,
    assoc "classify_type" (nodes (CuratorAgent.workflow Sample.broken_curator))
      = Some action /\
    reachable Sample.broken_curator Sample.case Sample.known "classify_type"
      state w0 /\
    action state (w0 ++ [Ran "classify_type"])%list
      = (inl (ValueError "Error al validar el resultado de FraudTypeAgent: "
                (ValidationError "FraudTypeOutput"
                   [ {| loc := []; err := model_type |} ])), w) /\
    CuratorAgent.analyze_case Sample.broken_curator Sample.now Sample.case
      Sample.known []
      = (inl (ValueError "Error al validar el resultado de FraudTypeAgent: "
                (ValidationError "FraudTypeOutput"
                   [ {| loc := []; err := model_type |} ])), w) /\
    nodes_run w = ["analyze_patterns"; "classify_type"].
Proof.
  assert (H : validation_fails Sample.broken_curator Sample.case Sample.known
                TypeAgent [ {| loc := []; err := model_type |} ]).
  { apply (fails_type _ _ _ Sample.fraud VNone).
    - eexists; split; reflexivity.
    - reflexivity.
    - reflexivity.
    - reflexivity. }
  split; [exact H|].
  exact (invalid_answer_aborts_analysis Sample.broken_curator Sample.now
           Sample.case Sample.known TypeAgent _ H).
Defined.

Lemma invocation_failure_carries_no_response :
  PatternAnalysisAgent.analyze Sample.unreachable_model
    "Your account is locked" []
  = (inl (ModelError "timeout"), [Invoked PatternAgent])
  /\ response_printed [Invoked PatternAgent] = false
  /\ BaseAgent._validate_and_parse_response VNone [] = (inr VNone, [])
  /\ PatternAnalysisOutput.model_validate VNone
     = inl [ {| loc := []; err := model_type |} ].
Proof. repeat split. Qed.

Lemma empty_summary_falls_back_to_reasoning_witness :
  exists final w s,
    invoke (CuratorAgent.workflow Sample.terse_curator)
      (CuratorState.model_dump
         (CuratorState.init (TextInput.text Sample.case) Sample.known)) []
      = (inr final, w) /\
    CuratorState.model_validate (VDict final) = inr s /\
    CuratorState.is_fraud s = true /\
    CuratorState.final_summary s = Some "" /\
    exists fa pattern_analysis,
      CuratorAgent.analyze_case Sample.terse_curator Sample.now Sample.case
        Sample.known [] = (inr fa, w) /\
      FraudAnalysis.is_fraud fa = true /\
      CuratorState.pattern_analysis s = Some pattern_analysis /\
      dict_get "reasoning" pattern_analysis
        = Some (VStr (FraudAnalysis.explanation fa)).
Proof.
  eexists _, _, _.
  split; [reflexivity|]. split; [reflexivity|]. split; [reflexivity|].
  split; [reflexivity|].
  eapply (empty_summary_falls_back_to_reasoning Sample.terse_curator
            Sample.now Sample.case Sample.known); reflexivity.
Defined.

(** ** Further properties of the analysis of a case *)

(** X1: when the invocation of the model by an agent raises, [analyze_case]
    raises that same exception, not wrapped in a [ValueError]; the nodes
    up to the one of that agent have run, and no other. *)
Theorem invocation_failure_aborts_analysis
  (self : CuratorAgent.t) (now : datetime) (text_input : TextInput.t)
  (similar_cases : list string) (a : AgentName) (e : Exn) :
  invocation_fails self text_input similar_cases a e ->
  exists w,
    CuratorAgent.analyze_case self now text_input similar_cases []
      = (inl e, w) /\
    nodes_run w = path_to a /\
    map node_of (agents_invoked w) = path_to a.
Proof.
  intros [e' He|p e' (r & Hr & Hp) Hf He
          |p c e' (r & Hr & Hp) Hf (r' & Hr' & Hc) He];
    rewrite analyze_case_eq.
  - rewrite He. eexists; repeat split.
  - rewrite Hr, Hp, Hf, He. eexists; repeat split.
  - rewrite Hr, Hp, Hf, Hr', Hc. cbv zeta. rewrite He.
    eexists; repeat split.
Qed.

(** X2: an exception raised by [analyze_case] is either the exception an
    invocation of the model raised or the [ValueError] for an answer its
    schema rejected. Nothing else fails: the reading of the terminal state,
    the subscripts [fraud_type["fraud_type"]] and
    [pattern_analysis["reasoning"]], the construction of the result and
    the step limit of the graph raise nothing. *)
Theorem analysis_fails_only_in_an_agent
  (self : CuratorAgent.t) (now : datetime) (text_input : TextInput.t)
  (similar_cases : list string) (w0 : Log) (e : Exn) (w : Log) :
  CuratorAgent.analyze_case self now text_input similar_cases w0
    = (inl e, w) ->
  (exists a, invocation_fails self text_input similar_cases a e) \/
  (exists a es,
     validation_fails self text_input similar_cases a es /\
     e = ValueError (validation_message a) (ValidationError (schema_of a) es)).
Proof.
  intro H. rewrite analyze_case_eq in H.
  destruct (ask_pattern _ _) as [e1|r] eqn:Hr.
  { inversion H; subst. left. exists PatternAgent. now constructor. }
  destruct (PatternAnalysisOutput.model_validate r) as [es|p] eqn:Hp.
  { inversion H; subst. right. exists PatternAgent, es.
    split; [eapply fails_pattern; eauto|reflexivity]. }
  assert (Hrep : pattern_reports self text_input p) by (exists r; auto).
  destruct (PatternAnalysisOutput.is_fraud p) eqn:Hf; [|discriminate].
  destruct (ask_type _ _ _) as [e1|r'] eqn:Hr'.
  { inversion H; subst. left. exists TypeAgent.
    eapply raises_type; eauto. }
  destruct (FraudTypeOutput.model_validate r') as [es|c] eqn:Hc.
  { inversion H; subst. right. exists TypeAgent, es.
    split; [eapply fails_type; eauto|reflexivity]. }
  assert (Hrep' : type_reports self similar_cases p c) by (exists r'; auto).
  cbv zeta in H.
  destruct (ask_summary _ _ _) as [e1|r''] eqn:Hr''.
  { inversion H; subst. left. exists SummaryAgentName.
    eapply raises_summary; eauto. }
  destruct (FraudSummaryOutput.model_validate r'') as [es|m] eqn:Hm;
    [|discriminate].
  inversion H; subst. right. exists SummaryAgentName, es.
  split; [eapply fails_summary; eauto|reflexivity].
Qed.

(** X3: a result returned by [analyze_case] carries the reading of the
    clock and is of one of two kinds. Either it is the no-fraud result for
    a pattern analysis that reported no fraud, and only [analyze_patterns]
    ran; or it has [is_fraud = true], is built from the three models the
    agents reported, and the three nodes ran. *)
Theorem returned_result_inversion
  (self : CuratorAgent.t) (now : datetime) (text_input : TextInput.t)
  (similar_cases : list string) (fa : FraudAnalysis.t) (w : Log) :
  CuratorAgent.analyze_case self now text_input similar_cases []
    = (inr fa, w) ->
  FraudAnalysis.timestamp fa = now /\
  ((exists p,
      pattern_reports self text_input p /\
      PatternAnalysisOutput.is_fraud p = false /\
      fa = no_fraud_result now similar_cases p /\
      nodes_run w = ["analyze_patterns"]) \/
   (exists p c m,
      pattern_reports self text_input p /\
      PatternAnalysisOutput.is_fraud p = true /\
      type_reports self similar_cases p c /\
      summary_reports self p c m /\
      fa = fraud_result now similar_cases p c m /\
      nodes_run w
        = ["analyze_patterns"; "classify_type"; "generate_summary"])).
Proof.
  intro H. rewrite analyze_case_eq in H.
  destruct (ask_pattern _ _) as [e1|r] eqn:Hr; [discriminate|].
  destruct (PatternAnalysisOutput.model_validate r) as [es|p] eqn:Hp;
    [discriminate|].
  assert (Hrep : pattern_reports self text_input p) by (exists r; auto).
  destruct (PatternAnalysisOutput.is_fraud p) eqn:Hf.
  - destruct (ask_type _ _ _) as [e1|r'] eqn:Hr'; [discriminate|].
    destruct (FraudTypeOutput.model_validate r') as [es|c] eqn:Hc;
      [discriminate|].
    cbv zeta in H.
    destruct (ask_summary _ _ _) as [e1|r''] eqn:Hr''; [discriminate|].
    destruct (FraudSummaryOutput.model_validate r'') as [es|m] eqn:Hm;
      [discriminate|].
    inversion H; subst. split; [reflexivity|]. right.
    exists p, c, m. repeat split; auto; eexists; eauto.
  - inversion H; subst. split; [reflexivity|]. left.
    exists p. repeat split; auto.
Qed.

(** X4: the explanation of a returned result is empty only if the
    reasoning of the pattern analysis is empty: an empty summary never
    hides a reasoning. *)
Theorem empty_explanation_only_without_reasoning
  (self : CuratorAgent.t) (now : datetime) (text_input : TextInput.t)
  (similar_cases : list string) (fa : FraudAnalysis.t) (w0 w : Log) :
  CuratorAgent.analyze_case self now text_input similar_cases w0
    = (inr fa, w) ->
  FraudAnalysis.explanation fa = "" ->
  exists p,
    pattern_reports self text_input p /\
    PatternAnalysisOutput.reasoning p = "".
Proof.
  intros H He. rewrite analyze_case_eq in H.
  destruct (ask_pattern _ _) as [e1|r] eqn:Hr; [discriminate|].
  destruct (PatternAnalysisOutput.model_validate r) as [es|p] eqn:Hp;
    [discriminate|].
  exists p. split; [exists r; auto|].
  destruct (PatternAnalysisOutput.is_fraud p).
  - destruct (ask_type _ _ _) as [e1|r']; [discriminate|].
    destruct (FraudTypeOutput.model_validate r') as [es|c]; [discriminate|].
    cbv zeta in H.
    destruct (ask_summary _ _ _) as [e1|r'']; [discriminate|].
    destruct (FraudSummaryOutput.model_validate r'') as [es|m];
      [discriminate|].
    inversion H; subst. unfold fraud_result in He; simpl in He.
    destruct (String.eqb_spec (FraudSummaryOutput.summary m) "");
      congruence.
  - inversion H; subst. exact He.
Qed.

(** X5: in every analysis, returning or aborted, each node that ran
    invoked the model through its own agent exactly once and through no
    other, so the model is invoked at most three times. *)
Theorem each_node_invokes_its_agent
  (self : CuratorAgent.t) (now : datetime) (text_input : TextInput.t)
  (similar_cases : list string) (r : Exn + FraudAnalysis.t) (w : Log) :
  CuratorAgent.analyze_case self now text_input similar_cases [] = (r, w) ->
  nodes_run w = map node_of (agents_invoked w) /\
  (length (agents_invoked w) <= 3)%nat.
Proof.
  intro H. rewrite analyze_case_eq in H.
  destruct (ask_pattern _ _) as [e|rp];
    [inversion H; subst; simpl; auto|].
  destruct (PatternAnalysisOutput.model_validate rp) as [es|p];
    [inversion H; subst; simpl; auto|].
  destruct (PatternAnalysisOutput.is_fraud p);
    [|inversion H; subst; simpl; auto].
  destruct (ask_type _ _ _) as [e|rc];
    [inversion H; subst; simpl; auto|].
  destruct (FraudTypeOutput.model_validate rc) as [es|c];
    [inversion H; subst; simpl; auto|].
  cbv zeta in H.
  destruct (ask_summary _ _ _) as [e|rs];
    [inversion H; subst; simpl; auto|].
  destruct (FraudSummaryOutput.model_validate rs) as [es|m];
    inversion H; subst; simpl; auto.
Qed.

(** X6: no analysis, returning or aborted, prints the diagnostics of the
    handler of [_validate_and_parse_response]: neither the error line nor
    the original response. *)
Theorem analysis_prints_no_diagnostics
  (self : CuratorAgent.t) (now : datetime) (text_input : TextInput.t)
  (similar_cases : list string) (r : Exn + FraudAnalysis.t) (w : Log) :
  CuratorAgent.analyze_case self now text_input similar_cases [] = (r, w) ->
  diagnostics_printed w = false.
Proof.
  intro H. rewrite analyze_case_eq in H.
  destruct (ask_pattern _ _) as [e|rp];
    [inversion H; subst; reflexivity|].
  destruct (PatternAnalysisOutput.model_validate rp) as [es|p];
    [inversion H; subst; reflexivity|].
  destruct (PatternAnalysisOutput.is_fraud p);
    [|inversion H; subst; reflexivity].
  destruct (ask_type _ _ _) as [e|rc];
    [inversion H; subst; reflexivity|].
  destruct (FraudTypeOutput.model_validate rc) as [es|c];
    [inversion H; subst; reflexivity|].
  cbv zeta in H.
  destruct (ask_summary _ _ _) as [e|rs];
    [inversion H; subst; reflexivity|].
  destruct (FraudSummaryOutput.model_validate rs) as [es|m];
    inversion H; subst; reflexivity.
Qed.

(** ** Further properties of the nodes and of the run *)

(** X7: when [analyze_patterns] returns, the state it returns validates,
    holds the dump of a model that the answer of the pattern agent
    validated to, has [is_fraud] equal to that model's flag, and has every
    other field as in the state received. *)
Theorem analyze_patterns_writes_its_fields
  (pa : PatternAnalysisAgent.t) (d : Dict) (s : CuratorState.t)
  (w : Log) (d' : Dict) (w' : Log) :
  CuratorState.model_validate (VDict d) = inr s ->
  analyze_patterns pa d w = (inr d', w') ->
  exists s' r p,
    CuratorState.model_validate (VDict d') = inr s' /\
    PatternAnalysisAgent.llm pa (CuratorState.text s) = inr r /\
    PatternAnalysisOutput.model_validate r = inr p /\
    CuratorState.pattern_analysis s'
      = Some (PatternAnalysisOutput.model_dump p) /\
    CuratorState.is_fraud s' = PatternAnalysisOutput.is_fraud p /\
    same_text_and_cases s s' /\
    CuratorState.fraud_type s' = CuratorState.fraud_type s /\
    CuratorState.final_summary s' = CuratorState.final_summary s /\
    CuratorState.new_type_name s' = CuratorState.new_type_name s.
Proof.
  intros Hs H. rewrite (analyze_patterns_eq d s w Hs) in H.
  destruct (PatternAnalysisAgent.llm _ _) as [e|r] eqn:Hr; [discriminate|].
  destruct (PatternAnalysisOutput.model_validate r) as [es|p] eqn:Hp;
    [discriminate|].
  inversion H; subst.
  exists (after_analysis s p), r, p.
  split; [apply CuratorState_round_trip|].
  unfold same_text_and_cases. repeat split; auto.
Qed.

(** X8: when [classify_type] returns, the state it returns validates and
    holds the dump of the model the answer of the type agent validated to.
    Its [new_type_name] is the one of that model when the category is
    ["NEW"] (also when the model has none) and the one of the state
    received otherwise. Every other field is as in the state received. *)
Theorem classify_type_writes_its_fields
  (ta : FraudTypeAgent.t) (d : Dict) (s : CuratorState.t)
  (w : Log) (d' : Dict) (w' : Log) :
  CuratorState.model_validate (VDict d) = inr s ->
  classify_type ta d w = (inr d', w') ->
  exists s' r c,
    CuratorState.model_validate (VDict d') = inr s' /\
    FraudTypeAgent.llm ta (CuratorState.pattern_analysis s)
      (CuratorState.similar_cases s) = inr r /\
    FraudTypeOutput.model_validate r = inr c /\
    CuratorState.fraud_type s' = Some (FraudTypeOutput.model_dump c) /\
    CuratorState.new_type_name s'
      = (if String.eqb (FraudTypeOutput.fraud_type c) "NEW"
         then FraudTypeOutput.new_type_name c
         else CuratorState.new_type_name s) /\
    same_text_and_cases s s' /\
    CuratorState.pattern_analysis s' = CuratorState.pattern_analysis s /\
    CuratorState.final_summary s' = CuratorState.final_summary s /\
    CuratorState.is_fraud s' = CuratorState.is_fraud s.
Proof.
  intros Hs H. rewrite (classify_type_eq d s w Hs) in H.
  destruct (FraudTypeAgent.llm _ _ _) as [e|r] eqn:Hr; [discriminate|].
  destruct (FraudTypeOutput.model_validate r) as [es|c] eqn:Hc;
    [discriminate|].
  inversion H; subst.
  exists (after_classification s c), r, c.
  split; [apply CuratorState_round_trip|].
  unfold same_text_and_cases, after_classification.
  destruct (String.eqb (FraudTypeOutput.fraud_type c) "NEW");
    repeat split; auto.
Qed.

(** X9: when [generate_summary] returns, the state it returns validates,
    has as [final_summary] the summary text of the model the answer of the
    summary agent validated to, and has every other field as in the state
    received; the warning signs and precautions of the model are not
    kept. *)
Theorem generate_summary_writes_its_field
  (sa : SummaryAgent.t) (d : Dict) (s : CuratorState.t)
  (w : Log) (d' : Dict) (w' : Log) :
  CuratorState.model_validate (VDict d) = inr s ->
  generate_summary sa d w = (inr d', w') ->
  exists s' r m,
    CuratorState.model_validate (VDict d') = inr s' /\
    SummaryAgent.llm sa
      [ ("pattern_analysis",
         of_option_dict (CuratorState.pattern_analysis s));
        ("fraud_type", of_option_dict (CuratorState.fraud_type s)) ]
      = inr r /\
    FraudSummaryOutput.model_validate r = inr m /\
    CuratorState.final_summary s' = Some (FraudSummaryOutput.summary m) /\
    d' = CuratorState.model_dump
           (CuratorState.set_final_summary s
              (Some (FraudSummaryOutput.summary m))) /\
    same_text_and_cases s s' /\
    CuratorState.pattern_analysis s' = CuratorState.pattern_analysis s /\
    CuratorState.fraud_type s' = CuratorState.fraud_type s /\
    CuratorState.is_fraud s' = CuratorState.is_fraud s /\
    CuratorState.new_type_name s' = CuratorState.new_type_name s.
Proof.
  intros Hs H. rewrite (generate_summary_eq d s w Hs) in H.
  destruct (SummaryAgent.llm _ _) as [e|r] eqn:Hr; [discriminate|].
  destruct (FraudSummaryOutput.model_validate r) as [es|m] eqn:Hm;
    [discriminate|].
  inversion H; subst.
  exists (after_summary s m), r, m.
  split; [apply CuratorState_round_trip|].
  unfold same_text_and_cases. repeat split; auto.
Qed.

(** X10: given a dictionary that is not a valid state, each node and the
    router raise the validation error of [CuratorState] at once: no agent
    is invoked and nothing is printed (the log is unchanged). *)
Theorem invalid_state_stops_before_the_agent
  (self : CuratorAgent.t) (d : Dict) (es : list LineError) (w : Log) :
  CuratorState.model_validate (VDict d) = inl es ->
  analyze_patterns (CuratorAgent.pattern_agent self) d w
    = (inl (ValidationError "CuratorState" es), w) /\
  classify_type (CuratorAgent.type_agent self) d w
    = (inl (ValidationError "CuratorState" es), w) /\
  generate_summary (CuratorAgent.summary_agent self) d w
    = (inl (ValidationError "CuratorState" es), w) /\
  should_classify d w = (inl (ValidationError "CuratorState" es), w).
Proof.
  intro H.
  unfold analyze_patterns, classify_type, generate_summary, should_classify,
    bind.
  rewrite H. repeat split.
Qed.

(** X11: the run of the workflow from the initial state of a case needs a
    limit of at most four steps: with any limit of at least four the
    outcome and the log are those with a limit of exactly four, so
    [invoke], with its limit of 25, never stops a case for want of steps.
    The bound is reached: when fraud, a type and a summary are reported, a
    limit of three runs the three nodes and then raises the recursion
    error; when no fraud is reported, a limit of one runs [analyze_patterns]
    and raises it, and a limit of two returns the state. *)
Theorem step_limit_of_four_suffices
  (self : CuratorAgent.t) (text_input : TextInput.t)
  (similar_cases : list string) (w : Log) :
  (forall fuel,
     run (CuratorAgent.workflow self) (4 + fuel) "analyze_patterns"
       (CuratorState.model_dump
          (CuratorState.init (TextInput.text text_input) similar_cases)) w
     = run (CuratorAgent.workflow self) 4 "analyze_patterns"
         (CuratorState.model_dump
            (CuratorState.init (TextInput.text text_input) similar_cases)) w)
  /\
  invoke (CuratorAgent.workflow self)
    (CuratorState.model_dump
       (CuratorState.init (TextInput.text text_input) similar_cases)) w
  = run (CuratorAgent.workflow self) 4 "analyze_patterns"
      (CuratorState.model_dump
         (CuratorState.init (TextInput.text text_input) similar_cases)) w
  /\
  (forall p c m,
     pattern_reports self text_input p ->
     PatternAnalysisOutput.is_fraud p = true ->
     type_reports self similar_cases p c ->
     summary_reports self p c m ->
     run (CuratorAgent.workflow self) 3 "analyze_patterns"
       (CuratorState.model_dump
          (CuratorState.init (TextInput.text text_input) similar_cases)) w
     = (inl GraphRecursionError,
        (w ++ log_complete (classified text_input similar_cases p c))%list))
  /\
  (forall p,
     pattern_reports self text_input p ->
     PatternAnalysisOutput.is_fraud p = false ->
     run (CuratorAgent.workflow self) 1 "analyze_patterns"
       (CuratorState.model_dump
          (CuratorState.init (TextInput.text text_input) similar_cases)) w
     = (inl GraphRecursionError, (w ++ log_pattern)%list) /\
     run (CuratorAgent.workflow self) 2 "analyze_patterns"
       (CuratorState.model_dump
          (CuratorState.init (TextInput.text text_input) similar_cases)) w
     = (inr (CuratorState.model_dump
               (analysed text_input similar_cases p)),
        (w ++ log_pattern)%list)).
Proof.
  split; [|split; [|split]].
  - intro fuel.
    rewrite (run_eq self text_input similar_cases fuel w).
    change 4%nat with (4 + 0)%nat.
    rewrite (run_eq self text_input similar_cases 0 w). reflexivity.
  - unfold invoke.
    change (entry_point (CuratorAgent.workflow self))
      with (Some "analyze_patterns").
    change recursion_limit with (4 + 21)%nat. cbv beta iota.
    rewrite (run_eq self text_input similar_cases 21 w).
    change 4%nat with (4 + 0)%nat.
    rewrite (run_eq self text_input similar_cases 0 w). reflexivity.
  - intros p c m (r & Hr & Hp) Hf (r' & Hr' & Hc) (r'' & Hr'' & Hm).
    rewrite run_S, step_analyze_patterns.
    change (PatternAnalysisAgent.llm _ _) with (ask_pattern self text_input).
    rewrite Hr, Hp, Hf. cbn [fst snd].
    change ("classify_type" =? END) with false. cbv iota.
    rewrite run_S, step_classify_type.
    change (FraudTypeAgent.llm _ _ _) with (ask_type self similar_cases p).
    rewrite Hr', Hc. cbn [fst snd].
    change ("generate_summary" =? END) with false. cbv iota.
    fold (analysed text_input similar_cases p).
    fold (classified text_input similar_cases p c).
    rewrite run_1, step_generate_summary.
    destruct (classified_fields text_input similar_cases p c)
      as (Hpa & Hft & _).
    rewrite Hpa, Hft. cbn [of_option_dict].
    change (SummaryAgent.llm _ _) with (ask_summary self p c).
    rewrite Hr'', Hm.
    unfold log_complete, log_summary, log_type.
    rewrite <- !app_assoc. reflexivity.
  - intros p (r & Hr & Hp) Hf. split.
    + rewrite run_1, step_analyze_patterns.
      change (PatternAnalysisAgent.llm _ _)
        with (ask_pattern self text_input).
      rewrite Hr, Hp. reflexivity.
    + rewrite run_S, step_analyze_patterns.
      change (PatternAnalysisAgent.llm _ _)
        with (ask_pattern self text_input).
      rewrite Hr, Hp, Hf. reflexivity.
Qed.

(** ** Further properties of the models, the tool and the constructors *)

Lemma TextInput_round_trip (m : TextInput.t) :
  model_validate TextInput_model (VDict (model_dump TextInput_model m))
  = inr m.
Proof. destruct m; reflexivity. Qed.

(** X12: for each model class of the program, validating the dump of an
    instance gives the instance back, and the dump has exactly the fields
    of the class, in their order of declaration. *)
Theorem program_models_round_trip (model : BaseModel) :
  In model program_models ->
  forall m : instance model,
    model_validate model (VDict (model_dump model m)) = inr m /\
    map fst (model_dump model m) = model_fields model.
Proof.
  intros [<-|[<-|[<-|[<-|[<-|[]]]]]] m; (split; [|reflexivity]).
  - apply PatternAnalysisOutput_round_trip.
  - apply FraudTypeOutput_round_trip.
  - apply FraudSummaryOutput_round_trip.
  - apply CuratorState_round_trip.
  - apply TextInput_round_trip.
Qed.

(** X13: what [post_response] returns for a model class of the program is
    in normal form: the returned dictionary has exactly the fields of the
    class (keys that are no fields are dropped, absent optional fields are
    filled in), nothing is logged, and [post_response] maps it to itself. *)
Theorem post_response_normalises
  (model : BaseModel) (content : Dict) (w : Log) (d : Dict) (w' : Log) :
  In model program_models ->
  post_response
    {| PostResponseInput.content := content;
       PostResponseInput.model := model |} w = (inr d, w') ->
  w' = w /\
  map fst d = model_fields model /\
  post_response
    {| PostResponseInput.content := d; PostResponseInput.model := model |} w
  = (inr d, w).
Proof.
  intros Hin H. unfold post_response, bind in *. cbn [PostResponseInput.model
    PostResponseInput.content] in *.
  destruct (model_validate model (VDict content)) as [es|m];
    [discriminate|].
  cbn in H. inversion H; subst.
  assert (Hrt : model_validate model (VDict (model_dump model m)) = inr m /\
                map fst (model_dump model m) = model_fields model).
  { destruct Hin as [<-|[<-|[<-|[<-|[<-|[]]]]]]; (split; [|reflexivity]).
    - apply PatternAnalysisOutput_round_trip.
    - apply FraudTypeOutput_round_trip.
    - apply FraudSummaryOutput_round_trip.
    - apply CuratorState_round_trip.
    - apply TextInput_round_trip. }
  destruct Hrt as [Hrt Hkeys]. rewrite Hrt. repeat split; auto.
Qed.

Lemma required_missing {A : Type} (d : Dict) (k : string)
  (f : PyVal -> Validated A) :
  dict_get k d = None ->
  required d k f = inl [ {| loc := [LKey k]; err := missing |} ].
Proof. intro H. unfold required. rewrite H. reflexivity. Qed.

Lemma ap_error_l {A B : Type} (f : Validated (A -> B)) (x : Validated A)
  (e : LineError) :
  (exists es, f = inl es /\ In e es) ->
  exists es, ap f x = inl es /\ In e es.
Proof.
  intros (es & -> & Hin). destruct x as [es'|a]; simpl.
  - exists (es ++ es')%list. split; [reflexivity|]. apply in_or_app; auto.
  - exists es; auto.
Qed.

Lemma ap_error_r {A B : Type} (f : Validated (A -> B)) (x : Validated A)
  (e : LineError) :
  (exists es, x = inl es /\ In e es) ->
  exists es, ap f x = inl es /\ In e es.
Proof.
  intros (es & -> & Hin). destruct f as [es'|g]; simpl.
  - exists (es' ++ es)%list. split; [reflexivity|]. apply in_or_app; auto.
  - exists es; auto.
Qed.

Ltac missing_field H :=
  repeat first
    [ apply ap_error_r; rewrite (required_missing _ _ _ H);
      eexists; split; [reflexivity|left; reflexivity]
    | apply ap_error_l ].

(** X14: an answer that lacks a required field of the schema of its agent
    is rejected, and the errors of the validation include the one that
    reports this field as missing, whatever else is wrong with the
    answer. [new_type_name] is not required. *)
Theorem missing_required_field_is_reported (d : Dict) (k : string) :
  dict_get k d = None ->
  (In k ["is_fraud"; "patterns"; "reasoning"] ->
   exists es,
     PatternAnalysisOutput.model_validate (VDict d) = inl es /\
     In {| loc := [LKey k]; err := missing |} es) /\
  (In k ["fraud_type"; "explanation"] ->
   exists es,
     FraudTypeOutput.model_validate (VDict d) = inl es /\
     In {| loc := [LKey k]; err := missing |} es) /\
  (In k ["summary"; "warning_signs"; "precautions"] ->
   exists es,
     FraudSummaryOutput.model_validate (VDict d) = inl es /\
     In {| loc := [LKey k]; err := missing |} es).
Proof.
  intro H. split; [|split].
  - intros [<-|[<-|[<-|[]]]]; unfold PatternAnalysisOutput.model_validate;
      missing_field H.
  - intros [<-|[<-|[]]]; unfold FraudTypeOutput.model_validate;
      missing_field H.
  - intros [<-|[<-|[<-|[]]]]; unfold FraudSummaryOutput.model_validate;
      missing_field H.
Qed.

(** X16: with a chat model that keeps the promise of structured output,
    no answer is ever rejected by the validation of a node: an analysis by
    the curator constructed from it fails only with the exception an
    invocation of the model raised. *)
Theorem structured_output_never_fails_validation
  (llm : ChatOpenAI) (self : CuratorAgent.t) (now : datetime)
  (text_input : TextInput.t) (similar_cases : list string)
  (w0 : Log) (e : Exn) (w : Log) :
  honours_schemas llm ->
  CuratorAgent_init llm = inr self ->
  CuratorAgent.analyze_case self now text_input similar_cases w0
    = (inl e, w) ->
  exists a, invocation_fails self text_input similar_cases a e.
Proof.
  intros (Hpat & Htyp & Hsum) Hinit H.
  assert (Ep : ask_pattern self text_input
               = with_structured_output llm PatternAnalysisOutput_model
                   (PatternPrompt (TextInput.text text_input)))
    by (inversion Hinit; reflexivity).
  assert (Et : forall p,
               ask_type self similar_cases p
               = with_structured_output llm FraudTypeOutput_model
                   (TypePrompt (Some (PatternAnalysisOutput.model_dump p))
                      similar_cases))
    by (inversion Hinit; reflexivity).
  assert (Es : forall p c,
               ask_summary self p c
               = with_structured_output llm FraudSummaryOutput_model
                   (SummaryPrompt (summary_request p c)))
    by (inversion Hinit; reflexivity).
  clear Hinit. rewrite analyze_case_eq in H.
  destruct (ask_pattern self text_input) as [e1|r] eqn:Hr.
  { inversion H; subst. exists PatternAgent. now constructor. }
  symmetry in Ep. destruct (Hpat _ _ Ep) as (p & ->).
  rewrite PatternAnalysisOutput_round_trip in H.
  assert (Hrep : pattern_reports self text_input p).
  { eexists; split; [exact Hr|apply PatternAnalysisOutput_round_trip]. }
  destruct (PatternAnalysisOutput.is_fraud p) eqn:Hf; [|discriminate].
  specialize (Et p).
  destruct (ask_type self similar_cases p) as [e1|r'] eqn:Hr'.
  { inversion H; subst. exists TypeAgent. eapply raises_type; eauto. }
  symmetry in Et. destruct (Htyp _ _ _ Et) as (c & ->).
  rewrite FraudTypeOutput_round_trip in H. cbv zeta in H.
  specialize (Es p c).
  destruct (ask_summary self p c) as [e1|r''] eqn:Hr''.
  { inversion H; subst. exists SummaryAgentName.
    eapply raises_summary; eauto.
    eexists; split; [exact Hr'|apply FraudTypeOutput_round_trip]. }
  symmetry in Es. destruct (Hsum _ _ Es) as (m & ->).
  rewrite FraudSummaryOutput_round_trip in H. discriminate.
Qed.

(** ** The further properties at sample cases *)

Lemma invocation_failure_aborts_analysis_witness :
  invocation_fails
    (Sample.curator (Sample.says_pattern Sample.fraud)
       (inl (ModelError "timeout")) (inr VNone))
    Sample.case Sample.known TypeAgent (ModelError "timeout") /\
  exists w,
    CuratorAgent.analyze_case
      (Sample.curator (Sample.says_pattern Sample.fraud)
         (inl (ModelError "timeout")) (inr VNone))
      Sample.now Sample.case Sample.known []
      = (inl (ModelError "timeout"), w) /\
    nodes_run w = ["analyze_patterns"; "classify_type"] /\
    map node_of (agents_invoked w) = ["analyze_patterns"; "classify_type"].
Proof.
  assert (H : invocation_fails
                (Sample.curator (Sample.says_pattern Sample.fraud)
                   (inl (ModelError "timeout")) (inr VNone))
                Sample.case Sample.known TypeAgent (ModelError "timeout")).
  { apply (raises_type _ _ _ Sample.fraud).
    - apply fraud_reported.
    - reflexivity.
    - reflexivity. }
  split; [exact H|].
  exact (invocation_failure_aborts_analysis _ Sample.now Sample.case
           Sample.known TypeAgent (ModelError "timeout") H).
Defined.

Lemma analysis_fails_only_in_an_agent_witness :
  exists w,
    CuratorAgent.analyze_case Sample.broken_curator Sample.now Sample.case
      Sample.known []
      = (inl (ValueError "Error al validar el resultado de FraudTypeAgent: "
                (ValidationError "FraudTypeOutput"
                   [ {| loc := []; err := model_type |} ])), w) /\
    ((exists a,
        invocation_fails Sample.broken_curator Sample.case Sample.known a
          (ValueError "Error al validar el resultado de FraudTypeAgent: "
             (ValidationError "FraudTypeOutput"
                [ {| loc := []; err := model_type |} ]))) \/
     (exists a es,
        validation_fails Sample.broken_curator Sample.case Sample.known a es
        /\
        ValueError "Error al validar el resultado de FraudTypeAgent: "
          (ValidationError "FraudTypeOutput"
             [ {| loc := []; err := model_type |} ])
        = ValueError (validation_message a)
            (ValidationError (schema_of a) es))).
Proof.
  eexists. split; [reflexivity|].
  eapply (analysis_fails_only_in_an_agent Sample.broken_curator Sample.now
            Sample.case Sample.known []).
  reflexivity.
Defined.

Lemma returned_result_inversion_witness :
  exists fa w,
    CuratorAgent.analyze_case Sample.phishing_curator Sample.now Sample.case
      Sample.known [] = (inr fa, w) /\
    FraudAnalysis.timestamp fa = Sample.now /\
    ((exists p,
        pattern_reports Sample.phishing_curator Sample.case p /\
        PatternAnalysisOutput.is_fraud p = false /\
        fa = no_fraud_result Sample.now Sample.known p /\
        nodes_run w = ["analyze_patterns"]) \/
     (exists p c m,
        pattern_reports Sample.phishing_curator Sample.case p /\
        PatternAnalysisOutput.is_fraud p = true /\
        type_reports Sample.phishing_curator Sample.known p c /\
        summary_reports Sample.phishing_curator p c m /\
        fa = fraud_result Sample.now Sample.known p c m /\
        nodes_run w
          = ["analyze_patterns"; "classify_type"; "generate_summary"])).
Proof.
  eexists _, _. split; [reflexivity|].
  eapply (returned_result_inversion Sample.phishing_curator Sample.now
            Sample.case Sample.known).
  reflexivity.
Defined.

Lemma empty_explanation_only_without_reasoning_witness :
  exists fa w,
    CuratorAgent.analyze_case
      (Sample.curator
         (Sample.says_pattern
            {| PatternAnalysisOutput.is_fraud := false;
               PatternAnalysisOutput.patterns := [];
               PatternAnalysisOutput.reasoning := "" |})
         (inr VNone) (inr VNone))
      Sample.now Sample.case Sample.known [] = (inr fa, w) /\
    FraudAnalysis.explanation fa = "" /\
    exists p,
      pattern_reports
        (Sample.curator
           (Sample.says_pattern
              {| PatternAnalysisOutput.is_fraud := false;
                 PatternAnalysisOutput.patterns := [];
                 PatternAnalysisOutput.reasoning := "" |})
           (inr VNone) (inr VNone))
        Sample.case p /\
      PatternAnalysisOutput.reasoning p = "".
Proof.
  eexists _, _. split; [reflexivity|]. split; [reflexivity|].
  eapply (empty_explanation_only_without_reasoning _ Sample.now Sample.case
            Sample.known _ []); reflexivity.
Defined.

Lemma each_node_invokes_its_agent_witness :
  exists r w,
    CuratorAgent.analyze_case Sample.broken_curator Sample.now Sample.case
      Sample.known [] = (r, w) /\
    nodes_run w = map node_of (agents_invoked w) /\
    (length (agents_invoked w) <= 3)%nat.
Proof.
  eexists _, _. split; [reflexivity|].
  eapply (each_node_invokes_its_agent Sample.broken_curator Sample.now
            Sample.case Sample.known).
  reflexivity.
Defined.

Lemma analysis_prints_no_diagnostics_witness :
  exists r w,
    CuratorAgent.analyze_case Sample.phishing_curator Sample.now Sample.case
      Sample.known [] = (r, w) /\
    diagnostics_printed w = false.
Proof.
  eexists _, _. split; [reflexivity|].
  eapply (analysis_prints_no_diagnostics Sample.phishing_curator Sample.now
            Sample.case Sample.known).
  reflexivity.
Defined.

Lemma analyze_patterns_writes_its_fields_witness :
  exists d' w',
    analyze_patterns (CuratorAgent.pattern_agent Sample.phishing_curator)
      (CuratorState.model_dump
         (CuratorState.init (TextInput.text Sample.case) Sample.known)) []
      = (inr d', w') /\
    exists s' r p,
      CuratorState.model_validate (VDict d') = inr s' /\
      PatternAnalysisAgent.llm
        (CuratorAgent.pattern_agent Sample.phishing_curator)
        (TextInput.text Sample.case) = inr r /\
      PatternAnalysisOutput.model_validate r = inr p /\
      CuratorState.pattern_analysis s'
        = Some (PatternAnalysisOutput.model_dump p) /\
      CuratorState.is_fraud s' = PatternAnalysisOutput.is_fraud p /\
      same_text_and_cases
        (CuratorState.init (TextInput.text Sample.case) Sample.known) s' /\
      CuratorState.fraud_type s' = None /\
      CuratorState.final_summary s' = None /\
      CuratorState.new_type_name s' = None.
Proof.
  eexists _, _. split; [reflexivity|].
  eapply (analyze_patterns_writes_its_fields
            (CuratorAgent.pattern_agent Sample.phishing_curator)
            (CuratorState.model_dump
               (CuratorState.init (TextInput.text Sample.case) Sample.known))
            (CuratorState.init (TextInput.text Sample.case) Sample.known)
            []); reflexivity.
Defined.

Lemma classify_type_writes_its_fields_witness :
  exists d' w',
    classify_type (CuratorAgent.type_agent Sample.novel_curator)
      (CuratorState.model_dump
         (analysed Sample.case Sample.known Sample.fraud)) []
      = (inr d', w') /\
    exists s' r c,
      CuratorState.model_validate (VDict d') = inr s' /\
      FraudTypeAgent.llm (CuratorAgent.type_agent Sample.novel_curator)
        (Some (PatternAnalysisOutput.model_dump Sample.fraud)) Sample.known
        = inr r /\
      FraudTypeOutput.model_validate r = inr c /\
      CuratorState.fraud_type s' = Some (FraudTypeOutput.model_dump c) /\
      CuratorState.new_type_name s'
        = (if String.eqb (FraudTypeOutput.fraud_type c) "NEW"
           then FraudTypeOutput.new_type_name c
           else None) /\
      same_text_and_cases
        (analysed Sample.case Sample.known Sample.fraud) s' /\
      CuratorState.pattern_analysis s'
        = Some (PatternAnalysisOutput.model_dump Sample.fraud) /\
      CuratorState.final_summary s' = None /\
      CuratorState.is_fraud s' = true.
Proof.
  eexists _, _. split; [vm_compute; reflexivity|].
  eapply (classify_type_writes_its_fields
            (CuratorAgent.type_agent Sample.novel_curator)
            (CuratorState.model_dump
               (analysed Sample.case Sample.known Sample.fraud))
            (analysed Sample.case Sample.known Sample.fraud) []);
    vm_compute; reflexivity.
Defined.

Lemma generate_summary_writes_its_field_witness :
  exists d' w',
    generate_summary (CuratorAgent.summary_agent Sample.phishing_curator)
      (CuratorState.model_dump
         (classified Sample.case Sample.known Sample.fraud Sample.phishing))
      [] = (inr d', w') /\
    exists s' r m,
      CuratorState.model_validate (VDict d') = inr s' /\
      SummaryAgent.llm (CuratorAgent.summary_agent Sample.phishing_curator)
        [ ("pattern_analysis",
           VDict (PatternAnalysisOutput.model_dump Sample.fraud));
          ("fraud_type", VDict (FraudTypeOutput.model_dump Sample.phishing)) ]
        = inr r /\
      FraudSummaryOutput.model_validate r = inr m /\
      CuratorState.final_summary s' = Some (FraudSummaryOutput.summary m) /\
      d' = CuratorState.model_dump
             (CuratorState.set_final_summary
                (classified Sample.case Sample.known Sample.fraud
                   Sample.phishing)
                (Some (FraudSummaryOutput.summary m))) /\
      same_text_and_cases
        (classified Sample.case Sample.known Sample.fraud Sample.phishing)
        s' /\
      CuratorState.pattern_analysis s'
        = Some (PatternAnalysisOutput.model_dump Sample.fraud) /\
      CuratorState.fraud_type s'
        = Some (FraudTypeOutput.model_dump Sample.phishing) /\
      CuratorState.is_fraud s' = true /\
      CuratorState.new_type_name s' = None.
Proof.
  eexists _, _. split; [vm_compute; reflexivity|].
  eapply (generate_summary_writes_its_field
            (CuratorAgent.summary_agent Sample.phishing_curator)
            (CuratorState.model_dump
               (classified Sample.case Sample.known Sample.fraud
                  Sample.phishing))
            (classified Sample.case Sample.known Sample.fraud
               Sample.phishing) []);
    vm_compute; reflexivity.
Defined.

Lemma invalid_state_stops_before_the_agent_witness :
  CuratorState.model_validate (VDict [ ("text", VInt 3) ])
    = inl [ {| loc := [LKey "text"]; err := string_type |};
            {| loc := [LKey "similar_cases"]; err := missing |} ] /\
  analyze_patterns (CuratorAgent.pattern_agent Sample.phishing_curator)
    [ ("text", VInt 3) ] []
    = (inl (ValidationError "CuratorState"
              [ {| loc := [LKey "text"]; err := string_type |};
                {| loc := [LKey "similar_cases"]; err := missing |} ]), []) /\
  classify_type (CuratorAgent.type_agent Sample.phishing_curator)
    [ ("text", VInt 3) ] []
    = (inl (ValidationError "CuratorState"
              [ {| loc := [LKey "text"]; err := string_type |};
                {| loc := [LKey "similar_cases"]; err := missing |} ]), []) /\
  generate_summary (CuratorAgent.summary_agent Sample.phishing_curator)
    [ ("text", VInt 3) ] []
    = (inl (ValidationError "CuratorState"
              [ {| loc := [LKey "text"]; err := string_type |};
                {| loc := [LKey "similar_cases"]; err := missing |} ]), []) /\
  should_classify [ ("text", VInt 3) ] []
    = (inl (ValidationError "CuratorState"
              [ {| loc := [LKey "text"]; err := string_type |};
                {| loc := [LKey "similar_cases"]; err := missing |} ]), []).
Proof.
  split; [reflexivity|].
  apply (invalid_state_stops_before_the_agent Sample.phishing_curator
           [ ("text", VInt 3) ]).
  reflexivity.
Defined.

Lemma step_limit_of_four_suffices_witness :
  pattern_reports Sample.phishing_curator Sample.case Sample.fraud /\
  PatternAnalysisOutput.is_fraud Sample.fraud = true /\
  type_reports Sample.phishing_curator Sample.known Sample.fraud
    Sample.phishing /\
  summary_reports Sample.phishing_curator Sample.fraud Sample.phishing
    (Sample.summary "Beware of reset links.") /\
  run (CuratorAgent.workflow Sample.phishing_curator) 3 "analyze_patterns"
    (CuratorState.model_dump
       (CuratorState.init (TextInput.text Sample.case) Sample.known)) []
  = (inl GraphRecursionError,
     ([] ++ log_complete
              (classified Sample.case Sample.known Sample.fraud
                 Sample.phishing))%list).
Proof.
  split; [apply fraud_reported|]. split; [reflexivity|].
  split; [apply type_reported|]. split; [apply summary_reported|].
  apply (proj1 (proj2 (proj2 (step_limit_of_four_suffices
                                Sample.phishing_curator Sample.case
                                Sample.known [])))
           Sample.fraud Sample.phishing
           (Sample.summary "Beware of reset links.")).
  - apply fraud_reported.
  - reflexivity.
  - apply type_reported.
  - apply summary_reported.
Defined.

Lemma program_models_round_trip_witness :
  In CuratorState_model program_models /\
  model_validate CuratorState_model
    (VDict (model_dump CuratorState_model
              (CuratorState.init "a case" Sample.known)))
    = inr (CuratorState.init "a case" Sample.known) /\
  map fst (model_dump CuratorState_model
             (CuratorState.init "a case" Sample.known))
    = ["text"; "similar_cases"; "pattern_analysis"; "fraud_type";
       "final_summary"; "is_fraud"; "new_type_name"].
Proof.
  assert (H : In CuratorState_model program_models)
    by (right; right; right; left; reflexivity).
  split; [exact H|].
  exact (program_models_round_trip CuratorState_model H
           (CuratorState.init "a case" Sample.known)).
Defined.

Lemma post_response_normalises_witness :
  In FraudTypeOutput_model program_models /\
  post_response
    {| PostResponseInput.content :=
         [ ("confidence", VInt 9); ("fraud_type", VStr "PHISHING");
           ("explanation", VStr "credential theft") ];
       PostResponseInput.model := FraudTypeOutput_model |} []
    = (inr [ ("fraud_type", VStr "PHISHING");
             ("explanation", VStr "credential theft");
             ("new_type_name", VNone) ], []) /\
  [] = ([] : Log) /\
  map fst [ ("fraud_type", VStr "PHISHING");
            ("explanation", VStr "credential theft");
            ("new_type_name", VNone) ]
    = ["fraud_type"; "explanation"; "new_type_name"] /\
  post_response
    {| PostResponseInput.content :=
         [ ("fraud_type", VStr "PHISHING");
           ("explanation", VStr "credential theft");
           ("new_type_name", VNone) ];
       PostResponseInput.model := FraudTypeOutput_model |} []
    = (inr [ ("fraud_type", VStr "PHISHING");
             ("explanation", VStr "credential theft");
             ("new_type_name", VNone) ], []).
Proof.
  assert (H : In FraudTypeOutput_model program_models)
    by (right; left; reflexivity).
  split; [exact H|]. split; [reflexivity|].
  apply (post_response_normalises FraudTypeOutput_model
           [ ("confidence", VInt 9); ("fraud_type", VStr "PHISHING");
             ("explanation", VStr "credential theft") ] [] _ [] H).
  reflexivity.
Defined.

Lemma missing_required_field_is_reported_witness :
  dict_get "reasoning" [ ("is_fraud", VBool true); ("patterns", VInt 0) ]
    = None /\
  In "reasoning" ["is_fraud"; "patterns"; "reasoning"] /\
  exists es,
    PatternAnalysisOutput.model_validate
      (VDict [ ("is_fraud", VBool true); ("patterns", VInt 0) ]) = inl es /\
    In {| loc := [LKey "reasoning"]; err := missing |} es.
Proof.
  split; [reflexivity|].
  split; [right; right; left; reflexivity|].
  apply (proj1 (missing_required_field_is_reported
                  [ ("is_fraud", VBool true); ("patterns", VInt 0) ]
                  "reasoning" eq_refl)).
  right; right; left; reflexivity.
Defined.

Lemma sample_chat_honours_schemas : honours_schemas sample_chat.
Proof.
  split; [|split].
  - intros text r H. inversion H. now exists Sample.fraud.
  - intros description known_types r H. discriminate.
  - intros analysis r H. inversion H. now exists (Sample.summary "Beware.").
Defined.

Lemma structured_output_never_fails_validation_witness :
  honours_schemas sample_chat /\
  exists self w,
    CuratorAgent_init sample_chat = inr self /\
    CuratorAgent.analyze_case self Sample.now Sample.case Sample.known []
      = (inl (ModelError "timeout"), w) /\
    exists a,
      invocation_fails self Sample.case Sample.known a (ModelError "timeout").
Proof.
  split; [exact sample_chat_honours_schemas|].
  eexists _, _. split; [reflexivity|]. split; [reflexivity|].
  eapply (structured_output_never_fails_validation sample_chat _ Sample.now
            Sample.case Sample.known []).
  - exact sample_chat_honours_schemas.
  - reflexivity.
  - reflexivity.
Defined.
